(** * Reddit compatibility analyzer: sampler, prompt composer, provider
      registry and corpus fetch

    A shallow embedding of [app_minimal.py], [llm_providers.py] and
    [reddit_scraper.py].  Python values are modelled as follows.

    - [str] is a sequence of Unicode code points ([list N]); [len] is the
      number of code points, [s[:n]] is [slice_to s n].
    - [int] is [Z]; [//] by a positive constant is [Z.div] (both floor).
    - A raised exception is the [Raise] case of the [result] monad.
    - What the program takes from outside (the random generator, the process
      environment, the vendor client libraries, the Reddit API) is a
      parameter of the function that uses it. *)

From Stdlib Require Import String Ascii DecimalString QArith.
From Stdlib Require Import List ZArith Lia Bool Arith Permutation Sorted.
Import ListNotations.

Local Open Scope Z_scope.

(** ** Python values and builtins *)

Module Py.

(** A character is a code point, a string a sequence of them. *)
Definition char := N.
Definition str := list char.

Definition len {A : Type} (l : list A) : Z := Z.of_nat (length l).

(** Source literals are written as Rocq strings, which are byte sequences
    in UTF-8; [lit] decodes the bytes to code points. *)
Fixpoint utf8_decode (bs : list N) (pending : nat) (acc : N) : str :=
  match bs with
  | [] => []
  | b :: bs' =>
      match pending with
      | O =>
          if (b <? 128)%N then b :: utf8_decode bs' 0 0%N
          else if (b <? 224)%N then utf8_decode bs' 1 (b - 192)%N
          else if (b <? 240)%N then utf8_decode bs' 2 (b - 224)%N
          else utf8_decode bs' 3 (b - 240)%N
      | S p =>
          let acc' := (acc * 64 + (b - 128))%N in
          match p with
          | O => acc' :: utf8_decode bs' 0 0%N
          | S _ => utf8_decode bs' p acc'
          end
      end
  end.

Definition lit (s : string) : str :=
  utf8_decode (map N_of_ascii (list_ascii_of_string s)) 0 0%N.

Fixpoint str_eqb (a b : str) : bool :=
  match a, b with
  | [], [] => true
  | x :: a', y :: b' => (x =? y)%N && str_eqb a' b'
  | _, _ => false
  end.

(** [str(i)] for a non-negative integer [i]: its decimal digits. *)
Definition str_of_nat (i : nat) : str :=
  match i with
  | O => lit "0"
  | S _ => lit (NilEmpty.string_of_uint (Nat.to_uint i))
  end.

(** [l[:n]]: a negative bound counts from the end of the list. *)
Definition slice_to {A : Type} (l : list A) (n : Z) : list A :=
  if 0 <=? n then firstn (Z.to_nat n) l
  else firstn (length l - Z.to_nat (- n)) l.

(** [s.lower()].  The mapping is the one of the ASCII range; the registry
    keys it is compared with are ASCII, and Python's case mapping of a
    string that holds a code point outside ASCII yields none of them. *)
Definition lower_char (c : char) : char :=
  if ((65 <=? c) && (c <=? 90))%N then (c + 32)%N else c.

Definition lower (s : str) : str := map lower_char s.

(** [c.isspace()], the characters [s.strip()] removes at both ends. *)
Definition isspace (c : char) : bool :=
  (((9 <=? c) && (c <=? 13)) || ((28 <=? c) && (c <=? 32))
   || (c =? 133) || (c =? 160) || (c =? 5760)
   || ((8192 <=? c) && (c <=? 8202))
   || (c =? 8232) || (c =? 8233) || (c =? 8239) || (c =? 8287)
   || (c =? 12288))%N.

Fixpoint lstrip (s : str) : str :=
  match s with
  | [] => []
  | c :: s' => if isspace c then lstrip s' else s
  end.

Definition strip (s : str) : str := rev (lstrip (rev (lstrip s))).

(** Truth value of an optional string: [None] and [''] are false. *)
Definition truthy (v : option str) : bool :=
  match v with
  | Some (_ :: _) => true
  | _ => false
  end.

(** Exceptions.  [External] stands for an exception class of a library
    outside the repository (named by class and message). *)
Inductive exn : Type :=
| ValueError (msg : str)
| ImportError (msg : str)
| KeyError (msg : str)
| IndexError (msg : str)
| External (cls msg : str).

Inductive result (A : Type) : Type :=
| Ok (a : A)
| Raise (e : exn).
Arguments Ok {A} a.
Arguments Raise {A} e.

Definition bind {A B : Type} (m : result A) (f : A -> result B) : result B :=
  match m with
  | Ok a => f a
  | Raise e => Raise e
  end.

(** ** [sorted(l, key=..., reverse=True)]

    Python's sort is stable, also with [reverse=True]: elements with equal
    keys keep their order.  The stable descending sort of a list is unique
    ([stable_sort_unique] below), so it is modelled by insertion from the
    right, each element going before the first one whose key is not
    greater. *)
Section Sorted.
Context {A : Type}.
Variable key : A -> Z.

Fixpoint insert_desc (x : A) (l : list A) : list A :=
  match l with
  | [] => [x]
  | y :: l' => if key x <? key y then y :: insert_desc x l' else x :: l
  end.

Fixpoint sorted_desc (l : list A) : list A :=
  match l with
  | [] => []
  | x :: l' => insert_desc x (sorted_desc l')
  end.

Definition with_key (k : Z) (l : list A) : list A :=
  filter (fun x => key x =? k) l.

Definition key_ge (x y : A) : Prop := key y <= key x.
End Sorted.

(** ** [random.sample(population, k)]

    The generator is a parameter: [rng i] is the [i]-th number it yields.
    The [i]-th element of the sample is the one at position
    [rng i mod (number of elements left)] of the pool, which is then taken
    out of the pool: a position of the population is chosen at most once. *)
Definition Rng := nat -> nat.

Fixpoint take_at {A : Type} (j : nat) (pool : list A) {struct pool}
  : option (A * list A) :=
  match pool with
  | [] => None
  | x :: pool' =>
      match j with
      | O => Some (x, pool')
      | S j' =>
          match take_at j' pool' with
          | Some (y, rest) => Some (y, x :: rest)
          | None => None
          end
      end
  end.

Fixpoint draw {A : Type} (rng : Rng) (i k : nat) (pool : list A) : list A :=
  match k with
  | O => []
  | S k' =>
      match take_at (Nat.modulo (rng i) (length pool)) pool with
      | Some (x, rest) => x :: draw rng (S i) k' rest
      | None => []
      end
  end.

Definition random_sample {A : Type} (rng : Rng) (population : list A) (k : Z)
  : result (list A) :=
  if (0 <=? k) && (k <=? len population)
  then Ok (draw rng 0 (Z.to_nat k) population)
  else Raise (ValueError (lit "Sample larger than population or is negative")).


End Py.

Import Py.

Declare Scope py_scope.
Delimit Scope py_scope with py.
Notation "x <- m ;; f" := (bind m (fun x => f))
  (at level 61, m at next level, right associativity) : py_scope.
Local Open Scope py_scope.

(** ** [llm_providers.py] *)

Module LLMProvider.

(** The provider classes. *)
Inductive provider_class : Type :=
| GroqProvider
| OpenAIProvider
| AnthropicProvider
| GeminiProvider
| CohereProvider.

(** Per class: the environment variable read by [__init__], the default
    model, and the message of the [ImportError] raised by [__init__]. *)
Definition credential_var (c : provider_class) : str :=
  match c with
  | GroqProvider => lit "GROQ_API_KEY"
  | OpenAIProvider => lit "OPENAI_API_KEY"
  | AnthropicProvider => lit "ANTHROPIC_API_KEY"
  | GeminiProvider => lit "GOOGLE_API_KEY"
  | CohereProvider => lit "COHERE_API_KEY"
  end.

Definition default_model (c : provider_class) : str :=
  match c with
  | GroqProvider => lit "llama-3.3-70b-versatile"
  | OpenAIProvider => lit "gpt-3.5-turbo"
  | AnthropicProvider => lit "claude-3-haiku-20240307"
  | GeminiProvider => lit "gemini-1.5-flash"
  | CohereProvider => lit "command"
  end.

Definition install_hint (c : provider_class) : str :=
  match c with
  | GroqProvider => lit "Install groq: pip install groq"
  | OpenAIProvider => lit "Install openai: pip install openai"
  | AnthropicProvider => lit "Install anthropic: pip install anthropic"
  | GeminiProvider => lit "Install: pip install google-generativeai"
  | CohereProvider => lit "Install: pip install cohere"
  end.

(** A vendor client object, as far as the program sees it: which vendor it
    talks to and the key (and, for Gemini, the model) it was built with. *)
Record client : Type := {
  client_vendor : provider_class;
  client_key : str;
  client_model : str
}.

(** The request a provider sends: the arguments of the vendor call. *)
Record request : Type := {
  rq_model : option str;
  rq_prompt : str;
  rq_temperature : option Q;
  rq_max_tokens : option Z
}.

(** The keyword arguments of [generate]. *)
Record kwargs : Type := {
  kw_model : option str;
  kw_temperature : option Q;
  kw_max_tokens : option Z
}.

(** What lies outside the program: the process environment ([os.getenv]),
    the import of a vendor library followed by the construction of its
    client, and the vendor call, which answers with the texts of the
    completions it returns. *)
Record world : Type := {
  getenv : str -> option str;
  connect : provider_class -> str -> str -> result client;
  call : client -> request -> result (list str)
}.

(** A provider object: the attributes [__init__] sets. *)
Record provider : Type := {
  cls : provider_class;
  api_key : option str;
  model : str;
  client_of : option client
}.

(** [__init__] of the five classes.  The library is imported and the client
    built only when the key is set and not empty; an [ImportError] there is
    raised again with the install hint, any other exception passes. *)
Definition init (w : world) (c : provider_class) : result provider :=
  let api_key := getenv w (credential_var c) in
  let model := default_model c in
  match api_key with
  | Some (ch :: key') =>
      match connect w c (ch :: key') model with
      | Ok cl =>
          Ok {| cls := c; api_key := api_key; model := model;
                client_of := Some cl |}
      | Raise (ImportError _) => Raise (ImportError (install_hint c))
      | Raise e => Raise e
      end
  | _ => Ok {| cls := c; api_key := api_key; model := model;
               client_of := None |}
  end.

(** The [providers] dict of [get_provider]. *)
Definition providers : list (str * provider_class) :=
  [ (lit "groq", GroqProvider);
    (lit "openai", OpenAIProvider);
    (lit "anthropic", AnthropicProvider);
    (lit "gemini", GeminiProvider);
    (lit "cohere", CohereProvider) ].

Fixpoint dict_get {V : Type} (d : list (str * V)) (k : str) : option V :=
  match d with
  | [] => None
  | (k', v) :: d' => if str_eqb k' k then Some v else dict_get d' k
  end.

Definition get_provider (w : world) (provider_name : str) : result provider :=
  match dict_get providers (lower provider_name) with
  | None => Raise (ValueError (lit "Unknown provider: " ++ provider_name))
  | Some provider_class => init w provider_class
  end.

Definition get_default {V : Type} (o : option V) (d : V) : V :=
  match o with
  | Some v => v
  | None => d
  end.

(** The vendor call of each class: which arguments are forwarded. *)
Definition build_request (self : provider) (prompt : str) (kw : kwargs)
  : request :=
  match cls self with
  | GroqProvider =>
      {| rq_model := Some (model self); rq_prompt := prompt;
         rq_temperature := Some (get_default (kw_temperature kw) (7 # 10)%Q);
         rq_max_tokens := Some (get_default (kw_max_tokens kw) 2000) |}
  | OpenAIProvider =>
      {| rq_model := Some (get_default (kw_model kw) (model self));
         rq_prompt := prompt;
         rq_temperature := Some (get_default (kw_temperature kw) (7 # 10)%Q);
         rq_max_tokens := Some (get_default (kw_max_tokens kw) 2000) |}
  | AnthropicProvider =>
      {| rq_model := Some (get_default (kw_model kw) (model self));
         rq_prompt := prompt;
         rq_temperature := None;
         rq_max_tokens := Some (get_default (kw_max_tokens kw) 2000) |}
  | GeminiProvider =>
      {| rq_model := None; rq_prompt := prompt;
         rq_temperature := None; rq_max_tokens := None |}
  | CohereProvider =>
      {| rq_model := Some (model self); rq_prompt := prompt;
         rq_temperature := Some (get_default (kw_temperature kw) (7 # 10)%Q);
         rq_max_tokens := Some (get_default (kw_max_tokens kw) 2000) |}
  end.

(** The text of the first completion ([choices[0]], [content[0]],
    [generations[0]]; for Gemini the accessor [response.text]). *)
Definition first_text (texts : list str) : result str :=
  match texts with
  | t :: _ => Ok t
  | [] => Raise (IndexError (lit "list index out of range"))
  end.

Definition generate (w : world) (self : provider) (prompt : str) (kw : kwargs)
  : result str :=
  match client_of self with
  | None => Raise (ValueError (credential_var (cls self) ++ lit " not set"))
  | Some cl =>
      response <- call w cl (build_request self prompt kw) ;;
      first_text response
  end.

End LLMProvider.

(** ** [reddit_scraper.py] *)

Module RedditScraper.

(** What the Reddit API hands out for a submission and for a comment. *)
Record submission : Type := {
  title : str;
  selftext : str;
  submission_score : Z;
  submission_created_utc : Q;
  submission_subreddit : str
}.

Record comment : Type := {
  body : str;
  comment_score : Z;
  comment_created_utc : Q;
  comment_subreddit : str
}.

Inductive post_type : Type := type_submission | type_comment.

(** A row of the returned table; a [DataFrame] is the sequence of its rows
    (the empty one has no row). *)
Record row : Type := {
  text : str;
  type : post_type;
  score : Z;
  created_utc : Q;
  subreddit : str
}.

Definition DataFrame := list row.

(** A [praw.Reddit] instance: the arguments it was built from. *)
Record session : Type := {
  session_id : str;
  session_secret : str;
  session_agent : str
}.

(** What lies outside the program: the constructor [praw.Reddit] (its last
    argument is [check_for_async], when given), the two
    listings of an account (each either yields its items or raises, as for
    an account that does not exist or an API that cannot be reached) and
    the table sort [sort_values('score', ascending=False)]. *)
Record api : Type := {
  Reddit : str -> str -> str -> option bool -> result session;
  submissions_new : session -> str -> Z -> result (list submission);
  comments_new : session -> str -> Z -> result (list comment);
  sort_values : DataFrame -> DataFrame
}.

(** The scraper object. *)
Record scraper : Type := {
  client_id : option str;
  client_secret : option str;
  user_agent : str;
  reddit : option session
}.

Definition or_default (v : option str) (d : str) : str :=
  match v with
  | Some (c :: s) => c :: s
  | _ => d
  end.

(** [__init__]: a failure of [praw.Reddit] there is logged and leaves
    [self.reddit] unset. *)
Definition init (w : api) (client_id client_secret user_agent : option str)
  : scraper :=
  let ua := or_default user_agent (lit "CompatibilityAnalyzer/1.0") in
  let reddit :=
    match client_id, client_secret with
    | Some (c :: id), Some (d :: secret) =>
        match Reddit w (c :: id) (d :: secret) ua None with
        | Ok r => Some r
        | Raise _ => None
        end
    | _, _ => None
    end in
  {| client_id := client_id; client_secret := client_secret;
     user_agent := ua; reddit := reddit |}.

(** Texts of more than ten characters are kept. *)
Definition qualifies (text : str) : bool :=
  match text with
  | [] => false
  | _ => 10 <? len text
  end.

Definition submission_row (s : submission) : option row :=
  let text := strip (title s ++ lit ". " ++ selftext s) in
  if qualifies text then
    Some {| text := text; type := type_submission;
            score := submission_score s;
            created_utc := submission_created_utc s;
            subreddit := submission_subreddit s |}
  else None.

Definition comment_row (c : comment) : option row :=
  let text := strip (body c) in
  if qualifies text then
    Some {| text := text; type := type_comment;
            score := comment_score c;
            created_utc := comment_created_utc c;
            subreddit := comment_subreddit c |}
  else None.

Fixpoint keep {A B : Type} (f : A -> option B) (l : list A) : list B :=
  match l with
  | [] => []
  | x :: l' =>
      match f x with
      | Some y => y :: keep f l'
      | None => keep f l'
      end
  end.

(** The body of the [try]: both listings are read and filtered. *)
Definition collect (w : api) (r : session) (username : str) (limit : Z)
  : result (list row) :=
  submissions <- submissions_new w r username (limit / 2) ;;
  comments <- comments_new w r username (limit / 2) ;;
  Ok (keep submission_row submissions ++ keep comment_row comments).

(** The [try ... except Exception] of [fetch_user_posts]: whatever is
    raised while the listings are read is logged, and an empty table is
    returned. *)
Definition fetch_with (w : api) (r : session) (username : str) (limit : Z)
  : result DataFrame :=
  match collect w r username limit with
  | Ok posts_data =>
      Ok (if 0 <? len posts_data then sort_values w posts_data
          else posts_data)
  | Raise _ => Ok []
  end.

Definition credentials_required : str :=
  lit "Reddit API credentials required! Add REDDIT_CLIENT_ID and REDDIT_CLIENT_SECRET to secrets.toml".

(** [fetch_user_posts]: the scraper after the call (its [reddit] attribute
    may have been set) and what the call returns or raises.  The calls of
    [PipelineLogger], which only print, are left out. *)
Definition fetch_user_posts (w : api) (self : scraper) (username : str)
  (limit : Z) : scraper * result DataFrame :=
  match reddit self with
  | Some r => (self, fetch_with w r username limit)
  | None =>
      match client_id self, client_secret self with
      | Some (c :: id), Some (d :: secret) =>
          match Reddit w (c :: id) (d :: secret) (user_agent self)
                  (Some false) with
          | Raise e => (self, Raise e)
          | Ok r =>
              ({| client_id := client_id self;
                  client_secret := client_secret self;
                  user_agent := user_agent self;
                  reddit := Some r |},
               fetch_with w r username limit)
          end
      | _, _ => (self, Raise (ValueError credentials_required))
      end
  end.

End RedditScraper.

(** ** [app_minimal.py] *)

Module App.

Import LLMProvider.

(** [fetch_reddit_posts]: the two secrets are read, a scraper is built and
    asked; [secrets] is [st.secrets.get].  (The result cache of the
    decorator does not change what a call returns.) *)
Definition fetch_reddit_posts (w : RedditScraper.api)
  (secrets : str -> option str) (username : str) (limit : Z)
  : result RedditScraper.DataFrame :=
  let reddit_id := secrets (lit "REDDIT_CLIENT_ID") in
  let reddit_secret := secrets (lit "REDDIT_CLIENT_SECRET") in
  let scraper := RedditScraper.init w reddit_id reddit_secret None in
  snd (RedditScraper.fetch_user_posts w scraper username limit).

Definition Pair : Type := str * str.

(** [[(p1, p2) for p1 in posts1 for p2 in posts2]] *)
Definition all_pairs (posts1 posts2 : list str) : list Pair :=
  flat_map (fun p1 => map (fun p2 => (p1, p2)) posts2) posts1.

(** The sort key [len(x[0]) + len(x[1])]. *)
Definition combined_length (x : Pair) : Z := len (fst x) + len (snd x).

Definition random_pairs (rng : Rng) (posts1 posts2 : list str)
  (num_samples : Z) : result (list Pair) :=
  let all_pairs := all_pairs posts1 posts2 in
  random_sample rng all_pairs (Z.min (num_samples / 2) (len all_pairs)).

Definition sorted_pairs (posts1 posts2 : list str) : list Pair :=
  sorted_desc combined_length (all_pairs posts1 posts2).

Definition longest_pairs (posts1 posts2 : list str) (num_samples : Z)
  : list Pair :=
  slice_to (sorted_pairs posts1 posts2) (num_samples / 2).

(** Lines 135 to 142: [sample_pairs = random_pairs + longest_pairs]. *)
Definition sample_pairs (rng : Rng) (posts1 posts2 : list str)
  (num_samples : Z) : result (list Pair) :=
  random_pairs <- random_pairs rng posts1 posts2 num_samples ;;
  Ok (random_pairs ++ longest_pairs posts1 posts2 num_samples).

(** The sampler: the pairs the prompt is built from,
    [sample_pairs[:num_samples]]. *)
Definition sample (rng : Rng) (posts1 posts2 : list str) (num_samples : Z)
  : result (list Pair) :=
  sample_pairs <- sample_pairs rng posts1 posts2 num_samples ;;
  Ok (slice_to sample_pairs num_samples).

(** [{p[:300]}{'...' if len(p) > 300 else ''}] *)
Definition shown (p : str) : str :=
  slice_to p 300 ++ (if 300 <? len p then lit "..." else []).

Definition bullet : str := lit "• ".

(** The three lines one turn of the loop appends to [pairs_text]. *)
Definition pair_block (user1 user2 : str) (i : nat) (x : Pair) : str :=
  ([10%N] ++ lit "**Pair " ++ str_of_nat i ++ lit ":**" ++ [10%N])
  ++ (bullet ++ user1 ++ lit ": " ++ shown (fst x) ++ [10%N])
  ++ (bullet ++ user2 ++ lit ": " ++ shown (snd x) ++ [10%N]).

(** The local variables of the loop of lines 145 to 149. *)
Record locals : Type := {
  l_sample_pairs : list Pair;
  l_pairs_text : str
}.

Definition loop_body (user1 user2 : str) (i : nat) (x : Pair) (st : locals)
  : locals :=
  {| l_sample_pairs := l_sample_pairs st;
     l_pairs_text := l_pairs_text st ++ pair_block user1 user2 i x |}.

(** [for i, (p1, p2) in enumerate(items, i): ...] *)
Fixpoint pairs_loop (user1 user2 : str) (i : nat) (items : list Pair)
  (st : locals) : locals :=
  match items with
  | [] => st
  | x :: items' =>
      pairs_loop user1 user2 (S i) items' (loop_body user1 user2 i x st)
  end.

(** The blocks of [items], numbered from [i]: what the loop appends. *)
Definition numbered_blocks (user1 user2 : str) (i : nat) (items : list Pair)
  : str :=
  concat (map (fun ix => pair_block user1 user2 (fst ix) (snd ix))
            (combine (seq i (length items)) items)).

Definition prompt_head : str := lit "You are an expert social psychologist analyzing Reddit users for compatibility.

**Users:** u/".

Definition prompt_and : str := lit " and u/".

Definition prompt_samples : str := lit "

**Sample Post Comparisons:**
".

Definition prompt_task : str := lit "

**Your Task:**
Create a comprehensive, insightful compatibility report with these sections:

### 🎯 Overall Compatibility Score
Provide a qualitative rating (Excellent/High/Moderate/Low/Minimal) with brief justification.

### 🔗 Shared Interests & Values  
Identify 3-5 key areas where they align. Be specific with examples from their posts.

### ⚖️ Complementary Differences
What differences make them interesting to each other? Not conflicts, but complementary traits.

### 💬 Communication Style Analysis
How do they express themselves? Formal vs casual? Humorous vs serious? Data-driven vs emotional?

### 🌟 Relationship Potential
What kind of connection would work best? (Friendship, mentorship, collaboration, romantic, etc.)

### 💡 5 Conversation Starters
Specific, engaging questions that would spark great discussions between them.

**Tone:** Insightful, warm, honest. Focus on genuine compatibility, not forced connections.
".

(** Lines 145 to 180: the state after the loop and the prompt. *)
Definition compose (user1 user2 : str) (sample_pairs : list Pair)
  (num_samples : Z) : locals * str :=
  let st := pairs_loop user1 user2 1 (slice_to sample_pairs num_samples)
              {| l_sample_pairs := sample_pairs; l_pairs_text := [] |} in
  (st,
   prompt_head ++ user1 ++ prompt_and ++ user2 ++ prompt_samples
   ++ l_pairs_text st ++ prompt_task).

Definition generate_analysis (w : world) (rng : Rng) (provider_name : str)
  (posts1 posts2 : list str) (user1 user2 : str) (num_samples : Z)
  : result str :=
  provider <- get_provider w provider_name ;;
  sample_pairs <- sample_pairs rng posts1 posts2 num_samples ;;
  let prompt := snd (compose user1 user2 sample_pairs num_samples) in
  generate w provider prompt
    {| kw_model := None; kw_temperature := Some (7 # 10)%Q;
       kw_max_tokens := Some 2500 |}.

End App.

(** ** Sample inputs *)

Module Samples.

Definition rng_sevens : Rng := fun _ => 7%nat.
Definition rng_zeros : Rng := fun _ => 0%nat.
Definition alice : list str := [lit "a"; lit "bbb"].
Definition bob : list str := [lit "cc"; lit "d"; lit "eeee"].


(** A body of 301 characters. *)
Definition long_body : str := repeat 97%N 301.

(** An environment with no credential; one with every credential set where
    no vendor library can be imported. *)
Definition world_unset : LLMProvider.world :=
  {| LLMProvider.getenv := fun _ => None;
     LLMProvider.connect := fun c key m =>
       Ok {| LLMProvider.client_vendor := c; LLMProvider.client_key := key;
             LLMProvider.client_model := m |};
     LLMProvider.call := fun _ _ => Ok [] |}.

Definition world_no_library : LLMProvider.world :=
  {| LLMProvider.getenv := fun _ => Some (lit "secret");
     LLMProvider.connect := fun _ _ _ =>
       Raise (ImportError (lit "No module named"));
     LLMProvider.call := fun _ _ => Ok [] |}.

(** A Reddit API on which every account is missing: both listings raise. *)
Definition not_found : exn :=
  External (lit "prawcore.exceptions.NotFound")
    (lit "received 404 HTTP response").

Definition api_no_account : RedditScraper.api :=
  {| RedditScraper.Reddit := fun id secret agent _ =>
       Ok {| RedditScraper.session_id := id;
             RedditScraper.session_secret := secret;
             RedditScraper.session_agent := agent |};
     RedditScraper.submissions_new := fun _ _ _ => Raise not_found;
     RedditScraper.comments_new := fun _ _ _ => Raise not_found;
     RedditScraper.sort_values := fun df => df |}.

Definition secrets_set : str -> option str := fun _ => Some (lit "secret").
Definition secrets_unset : str -> option str := fun _ => None.

Definition scraper_ready : RedditScraper.scraper :=
  RedditScraper.init api_no_account (Some (lit "id")) (Some (lit "secret"))
    None.

Definition scraper_bare : RedditScraper.scraper :=
  RedditScraper.init api_no_account None None None.

End Samples.

Import Samples.

(** ** [reddit_scraper.py]: saving to a file *)

Module RedditScraperFiles.

Import RedditScraper.

(** What the two functions do to the outside, in order: a table written to a
    path by [df.to_csv], a pause of [time.sleep]. *)
Inductive event : Type :=
| wrote (path : str) (df : DataFrame)
| slept (seconds : Z).

(** [df.to_csv(output_file, index=False)], which may raise. *)
Record disk : Type := {
  to_csv : DataFrame -> str -> result unit
}.

(** [save_user_data]: the scraper after the call, what was done to the
    outside, and the path returned or the exception raised. *)
Definition save_user_data (w : api) (d : disk) (self : scraper)
  (username : str) (limit : Z) (output_file : option str)
  : scraper * list event * result str :=
  let (self', fetched) := fetch_user_posts w self username limit in
  match fetched with
  | Raise e => (self', [], Raise e)
  | Ok df =>
      if len df =? 0 then
        (self', [],
         Raise (ValueError (lit "No data fetched for u/" ++ username)))
      else
        let output_file :=
          match output_file with
          | Some (c :: f) => c :: f
          | _ => username ++ lit "_reddit.csv"
          end in
        match to_csv d df output_file with
        | Raise e => (self', [wrote output_file df], Raise e)
        | Ok _ => (self', [wrote output_file df], Ok output_file)
        end
  end.

(** [quick_fetch_users]: a scraper built with no argument saves both users,
    pausing two seconds in between. *)
Definition quick_fetch_users (w : api) (d : disk) (user1 user2 : str)
  (posts_per_user : Z) : list event * result (str * str) :=
  let scraper := init w None None None in
  match save_user_data w d scraper user1 posts_per_user None with
  | (_, ev1, Raise e) => (ev1, Raise e)
  | (scraper1, ev1, Ok file1) =>
      match save_user_data w d scraper1 user2 posts_per_user None with
      | (_, ev2, Raise e) => (ev1 ++ [slept 2] ++ ev2, Raise e)
      | (_, ev2, Ok file2) => (ev1 ++ [slept 2] ++ ev2, Ok (file1, file2))
      end
  end.

End RedditScraperFiles.

(** ** [app_minimal.py]: the analysis run of [main] *)

Module Main.

Import LLMProvider App.

(** [str(e)]: the message of the exception; for a [KeyError] the key in
    quotes. *)
Definition exn_str (e : exn) : str :=
  match e with
  | ValueError msg => msg
  | ImportError msg => msg
  | IndexError msg => msg
  | External _ msg => msg
  | KeyError key => lit "'" ++ key ++ lit "'"
  end.

(** [df['text'].tolist()]: the empty table has no column, so the lookup of
    the column raises [KeyError]. *)
Definition column_text (df : RedditScraper.DataFrame) : result (list str) :=
  match df with
  | [] => Raise (KeyError (lit "text"))
  | _ :: _ => Ok (map RedditScraper.text df)
  end.

(** The messages the run shows. *)
Inductive message : Type :=
| st_error (msg : str)
| st_warning (msg : str)
| st_success (msg : str).

(** What the results section shows: its title, the three metrics, the
    report and the download button. *)
Record display : Type := {
  d_title : str;
  d_user1_posts : Z;
  d_user2_posts : Z;
  d_pairs_analyzed : Z;
  d_report : str;
  d_download_data : str;
  d_download_name : str
}.

Definition provider : str := lit "groq".

(** One fetch step: the [try] around [fetch_reddit_posts] and the column
    lookup, with the message shown for it. *)
Definition fetch_step (w : RedditScraper.api) (secrets : str -> option str)
  (user : str) (posts_limit : Z) : message * option (list str) :=
  match
    (df <- fetch_reddit_posts w secrets user posts_limit ;;
     column_text df)
  with
  | Ok posts =>
      (st_success (lit "✅ Fetched " ++ str_of_nat (length posts)
                   ++ lit " posts from u/" ++ user),
       Some posts)
  | Raise e =>
      (st_error (lit "❌ Failed to fetch u/" ++ user ++ lit ": " ++ exn_str e),
       None)
  end.

(** The analysis run of [main] (the block under [if analyze_clicked]), from
    the values of the two text inputs and the two sliders: the messages
    shown, in order, and the results section when the run reaches it.
    Layout, spinners, the tables of the expander and the result cache of
    [fetch_reddit_posts] are left out. *)
Definition main (wr : RedditScraper.api) (secrets : str -> option str)
  (wl : world) (rng : Rng) (user1 user2 : str) (posts_limit sample_pairs : Z)
  (analyze_clicked : bool) : list message * option display :=
  if negb analyze_clicked then ([], None)
  else
    match user1, user2 with
    | [], _ | _, [] => ([st_error (lit "⚠️ Please enter both usernames!")], None)
    | _ :: _, _ :: _ =>
        if str_eqb user1 user2 then ([st_warning (lit "🤔 That's the same person! Enter two different usernames.")], None)
        else
          match fetch_step wr secrets user1 posts_limit with
          | (m1, None) => ([m1], None)
          | (m1, Some posts1) =>
              match fetch_step wr secrets user2 posts_limit with
              | (m2, None) => ([m1; m2], None)
              | (m2, Some posts2) =>
                  match generate_analysis wl rng provider posts1 posts2
                          user1 user2 sample_pairs with
                  | Raise _ => ([m1; m2; st_error (lit "❌ Analysis failed. Please try again.")], None)
                  | Ok report =>
                      ([m1; m2],
                       Some {| d_title :=
                                 lit "## 📋 Compatibility Report: u/" ++ user1 ++ lit " ↔️ u/" ++ user2;
                               d_user1_posts := len posts1;
                               d_user2_posts := len posts2;
                               d_pairs_analyzed := sample_pairs;
                               d_report := report;
                               d_download_data := report;
                               d_download_name :=
                                 lit "compatibility_" ++ user1 ++ lit "_"
                                 ++ user2 ++ lit ".md" |})
                  end
              end
          end
    end.

End Main.

(** ** More sample inputs *)

Module Fixtures.

Import RedditScraper.

(** A disk on which every write succeeds. *)
Definition disk_ok : RedditScraperFiles.disk :=
  {| RedditScraperFiles.to_csv := fun _ _ => Ok tt |}.

(** A client and a provider holding it. *)
Definition groq_client : LLMProvider.client :=
  {| LLMProvider.client_vendor := LLMProvider.GroqProvider;
     LLMProvider.client_key := lit "secret";
     LLMProvider.client_model := lit "llama-3.3-70b-versatile" |}.

(** An environment with every credential set and every library present;
    the vendor answers every request with one completion. *)
Definition world_ready : LLMProvider.world :=
  {| LLMProvider.getenv := fun _ => Some (lit "secret");
     LLMProvider.connect := fun c key m =>
       Ok {| LLMProvider.client_vendor := c; LLMProvider.client_key := key;
             LLMProvider.client_model := m |};
     LLMProvider.call := fun _ _ => Ok [lit "They would get along."] |}.

Definition groq_provider : LLMProvider.provider :=
  {| LLMProvider.cls := LLMProvider.GroqProvider;
     LLMProvider.api_key := Some (lit "secret");
     LLMProvider.model := lit "llama-3.3-70b-versatile";
     LLMProvider.client_of := Some groq_client |}.

Definition no_kwargs : LLMProvider.kwargs :=
  {| LLMProvider.kw_model := None; LLMProvider.kw_temperature := None;
     LLMProvider.kw_max_tokens := None |}.

(** An environment in which building a client raises an error of the
    vendor library. *)
Definition bad_key : exn :=
  External (lit "groq.GroqError") (lit "The api_key is not valid.").

Definition world_bad_key : LLMProvider.world :=
  {| LLMProvider.getenv := fun _ => Some (lit "secret");
     LLMProvider.connect := fun _ _ _ => Raise bad_key;
     LLMProvider.call := fun _ _ => Ok [] |}.

(** The same environment with a vendor that fails. *)
Definition vendor_down : exn :=
  External (lit "groq.APIConnectionError") (lit "Connection error.").

Definition world_vendor_down : LLMProvider.world :=
  {| LLMProvider.getenv := fun _ => Some (lit "secret");
     LLMProvider.connect := fun c key m =>
       Ok {| LLMProvider.client_vendor := c; LLMProvider.client_key := key;
             LLMProvider.client_model := m |};
     LLMProvider.call := fun _ _ => Raise vendor_down |}.

(** A Reddit API on which every account has one submission and one
    comment that qualify and one comment that is too short. *)
Definition a_submission : submission :=
  {| title := lit "Hello"; selftext := lit "  a first post  ";
     submission_score := 3; submission_created_utc := 0%Q;
     submission_subreddit := lit "test" |}.

Definition a_comment : comment :=
  {| body := lit "  a long enough comment ";
     comment_score := 5; comment_created_utc := 0%Q;
     comment_subreddit := lit "test" |}.

Definition a_short_comment : comment :=
  {| body := lit " short ";
     comment_score := 9; comment_created_utc := 0%Q;
     comment_subreddit := lit "test" |}.

Definition api_active : api :=
  {| Reddit := fun id secret agent _ =>
       Ok {| session_id := id; session_secret := secret;
             session_agent := agent |};
     submissions_new := fun _ _ _ => Ok [a_submission];
     comments_new := fun _ _ _ => Ok [a_short_comment; a_comment];
     sort_values := fun df => df |}.

Definition scraper_active : scraper :=
  init api_active (Some (lit "id")) (Some (lit "secret")) None.

(** A Reddit API whose constructor fails. *)
Definition no_session : exn :=
  External (lit "praw.exceptions.ClientException")
    (lit "Required configuration setting missing.").

Definition api_no_session : api :=
  {| Reddit := fun _ _ _ _ => Raise no_session;
     submissions_new := fun _ _ _ => Ok [];
     comments_new := fun _ _ _ => Ok [];
     sort_values := fun df => df |}.

Definition scraper_lazy : scraper :=
  {| client_id := Some (lit "id"); client_secret := Some (lit "secret");
     user_agent := lit "CompatibilityAnalyzer/1.0"; reddit := None |}.

End Fixtures.

Import Fixtures.

(** * Properties *)

(** ** Slices *)

Lemma slice_to_nonneg {A : Type} (l : list A) (n : Z) :
  0 <= n -> slice_to l n = firstn (Z.to_nat n) l.
Proof.
  intros Hn. unfold slice_to.
  destruct (Z.leb_spec 0 n); [reflexivity | lia].
Qed.

Lemma slice_to_all {A : Type} (l : list A) (n : Z) :
  len l <= n -> slice_to l n = l.
Proof.
  intros Hn. unfold len in Hn. rewrite slice_to_nonneg by lia.
  apply firstn_all2. lia.
Qed.

Lemma len_slice_to {A : Type} (l : list A) (n : Z) :
  0 <= n -> len (slice_to l n) = Z.min n (len l).
Proof.
  intros Hn. rewrite slice_to_nonneg by exact Hn.
  unfold len. rewrite length_firstn. lia.
Qed.

Lemma len_app {A : Type} (l1 l2 : list A) : len (l1 ++ l2) = len l1 + len l2.
Proof. unfold len. rewrite length_app. lia. Qed.

Lemma str_eqb_eq (a b : str) : str_eqb a b = true <-> a = b.
Proof.
  revert b. induction a as [| x a IH]; intros [| y b]; simpl;
    try (split; [discriminate | discriminate]); [tauto |].
  rewrite andb_true_iff, N.eqb_eq, IH. split.
  - intros [-> ->]. reflexivity.
  - intros E. inversion E. split; reflexivity.
Qed.

(** ** The stable descending sort *)

Section SortedFacts.
Context {A : Type}.
Variable key : A -> Z.

Lemma insert_desc_perm (x : A) (l : list A) :
  Permutation (x :: l) (insert_desc key x l).
Proof.
  induction l as [| y l IH]; simpl.
  - apply Permutation_refl.
  - destruct (key x <? key y).
    + eapply perm_trans; [apply perm_swap |].
      apply perm_skip. exact IH.
    + apply Permutation_refl.
Qed.

Lemma sorted_desc_perm (l : list A) : Permutation l (sorted_desc key l).
Proof.
  induction l as [| x l IH]; simpl.
  - constructor.
  - eapply perm_trans; [| apply insert_desc_perm].
    apply perm_skip. exact IH.
Qed.

Lemma insert_desc_sorted (x : A) (l : list A) :
  StronglySorted (key_ge key) l ->
  StronglySorted (key_ge key) (insert_desc key x l).
Proof.
  induction l as [| y l IH]; intros Hs; simpl.
  - repeat constructor.
  - inversion Hs as [| ? ? Hs' Hall]; subst.
    destruct (Z.ltb_spec (key x) (key y)) as [Hlt | Hge].
    + constructor; [apply IH; exact Hs' |].
      eapply Permutation_Forall; [apply insert_desc_perm |].
      constructor; [unfold key_ge; lia | exact Hall].
    + constructor; [exact Hs |].
      constructor; [unfold key_ge; lia |].
      eapply Forall_impl; [| exact Hall].
      unfold key_ge. intros z Hz. lia.
Qed.

Lemma sorted_desc_sorted (l : list A) :
  StronglySorted (key_ge key) (sorted_desc key l).
Proof.
  induction l as [| x l IH]; simpl.
  - constructor.
  - apply insert_desc_sorted. exact IH.
Qed.

Lemma with_key_insert_desc (k : Z) (x : A) (l : list A) :
  with_key key k (insert_desc key x l) = with_key key k (x :: l).
Proof.
  unfold with_key.
  induction l as [| y l IH]; simpl; [reflexivity |].
  destruct (Z.ltb_spec (key x) (key y)) as [Hlt | Hge]; [| reflexivity].
  simpl. rewrite IH. simpl.
  destruct (Z.eqb_spec (key x) k) as [Hx | Hx];
    destruct (Z.eqb_spec (key y) k) as [Hy | Hy]; try reflexivity.
  lia.
Qed.

Lemma sorted_desc_stable (k : Z) (l : list A) :
  with_key key k (sorted_desc key l) = with_key key k l.
Proof.
  induction l as [| x l IH]; simpl; [reflexivity |].
  rewrite with_key_insert_desc. unfold with_key in *. simpl.
  rewrite IH. reflexivity.
Qed.

Lemma with_key_head (x : A) (l : list A) :
  with_key key (key x) (x :: l) = x :: with_key key (key x) l.
Proof. unfold with_key. simpl. rewrite Z.eqb_refl. reflexivity. Qed.

Lemma with_key_In (k : Z) (x : A) (l : list A) :
  In x (with_key key k l) <-> In x l /\ key x = k.
Proof.
  unfold with_key. rewrite filter_In. rewrite Z.eqb_eq. reflexivity.
Qed.

(** Two descending lists that hold the same elements of each key, in the
    same order, are equal: the stable descending sort is unique. *)
Lemma stable_sort_unique (l1 l2 : list A) :
  StronglySorted (key_ge key) l1 ->
  StronglySorted (key_ge key) l2 ->
  (forall k, with_key key k l1 = with_key key k l2) ->
  l1 = l2.
Proof.
  revert l2.
  induction l1 as [| x l1 IH]; intros l2 Hs1 Hs2 Hk.
  - destruct l2 as [| y l2]; [reflexivity |].
    specialize (Hk (key y)). rewrite with_key_head in Hk. discriminate.
  - destruct l2 as [| y l2].
    + specialize (Hk (key x)). rewrite with_key_head in Hk. discriminate.
    + inversion Hs1 as [| ? ? Hs1' Hall1]; subst.
      inversion Hs2 as [| ? ? Hs2' Hall2]; subst.
      assert (Hxy : key x = key y).
      { assert (Hx : In x (y :: l2)).
        { apply (proj1 (with_key_In (key x) x (y :: l2))).
          rewrite <- Hk, with_key_head. left. reflexivity. }
        assert (Hy : In y (x :: l1)).
        { apply (proj1 (with_key_In (key y) y (x :: l1))).
          rewrite Hk, with_key_head. left. reflexivity. }
        rewrite Forall_forall in Hall1, Hall2. unfold key_ge in *.
        destruct Hx as [Hx | Hx]; [subst; reflexivity |].
        destruct Hy as [Hy | Hy]; [subst; reflexivity |].
        specialize (Hall1 _ Hy). specialize (Hall2 _ Hx). lia. }
      assert (Heq : x = y).
      { pose proof (Hk (key x)) as H0.
        rewrite with_key_head in H0. rewrite Hxy in H0 at 2.
        rewrite with_key_head in H0. congruence. }
      subst y. f_equal.
      apply IH; [exact Hs1' | exact Hs2' |].
      intros k. specialize (Hk k). unfold with_key in *. simpl in Hk.
      destruct (key x =? k); congruence.
Qed.
End SortedFacts.

(** ** Drawing from a pool *)

Section DrawFacts.
Context {A : Type}.

Lemma take_at_some (j : nat) (pool : list A) :
  (j < length pool)%nat -> exists x rest, take_at j pool = Some (x, rest).
Proof.
  revert j. induction pool as [| y pool IH]; intros j Hj; simpl in *.
  - lia.
  - destruct j as [| j]; [exists y, pool; reflexivity |].
    destruct (IH j) as (x & rest & E); [lia |].
    exists x, (y :: rest). simpl. rewrite E. reflexivity.
Qed.

Lemma take_at_perm (j : nat) (pool : list A) (x : A) (rest : list A) :
  take_at j pool = Some (x, rest) -> Permutation pool (x :: rest).
Proof.
  revert j rest. induction pool as [| y pool IH]; intros j rest E; simpl in E.
  - discriminate.
  - destruct j as [| j].
    + inversion E; subst. apply Permutation_refl.
    + destruct (take_at j pool) as [[z r] |] eqn:Ej; [| discriminate].
      inversion E; subst.
      eapply perm_trans; [apply perm_skip, (IH _ _ Ej) |].
      apply perm_swap.
Qed.

Lemma take_at_length (j : nat) (pool : list A) (x : A) (rest : list A) :
  take_at j pool = Some (x, rest) -> length pool = S (length rest).
Proof.
  intros E. apply take_at_perm, Permutation_length in E. exact E.
Qed.

Lemma draw_nil (rng : Rng) (i k : nat) : draw rng i k (@nil A) = [].
Proof. destruct k; reflexivity. Qed.

Lemma draw_length (rng : Rng) (k : nat) :
  forall (i : nat) (pool : list A),
    (k <= length pool)%nat -> length (draw rng i k pool) = k.
Proof.
  induction k as [| k IH]; intros i pool Hk; simpl; [reflexivity |].
  destruct (take_at_some (rng i mod length pool) pool) as (x & rest & E).
  { apply Nat.mod_upper_bound. lia. }
  rewrite E. simpl. f_equal.
  apply IH. apply take_at_length in E. lia.
Qed.

Lemma draw_perm (rng : Rng) (k : nat) :
  forall (i : nat) (pool : list A),
    exists rest, Permutation pool (draw rng i k pool ++ rest).
Proof.
  induction k as [| k IH]; intros i pool; simpl.
  - exists pool. apply Permutation_refl.
  - destruct (take_at (rng i mod length pool) pool) as [[x r] |] eqn:E.
    + destruct (IH (S i) r) as (rest & Hrest).
      exists rest. simpl.
      eapply perm_trans; [apply (take_at_perm _ _ _ _ E) |].
      apply perm_skip. exact Hrest.
    + exists pool. apply Permutation_refl.
Qed.

Lemma draw_incl (rng : Rng) (i k : nat) (pool : list A) (x : A) :
  In x (draw rng i k pool) -> In x pool.
Proof.
  intros Hx. destruct (draw_perm rng k i pool) as (rest & Hp).
  eapply Permutation_in; [apply Permutation_sym, Hp |].
  apply in_or_app. left. exact Hx.
Qed.
End DrawFacts.

Section DrawRelated.
Context {A B : Type}.
Variable R : A -> B -> Prop.


End DrawRelated.



(** The draws and the arrangements correspond one to one: every
    arrangement of distinct elements of a duplicate-free pool is the
    outcome of some generator, and two generators whose numbers stay below
    the size of the pool that is left agree on the numbers they use when
    they yield the same outcome.  A generator of uniform numbers thus makes
    every arrangement equally likely. *)
Section DrawArrangements.
Context {A : Type}.


Lemma take_at_In (x : A) (pool : list A) :
  In x pool ->
  exists (j : nat) (rest : list A),
    (j < length pool)%nat /\ take_at j pool = Some (x, rest).
Proof.
  induction pool as [| y pool IH]; intros Hx; [contradiction |].
  destruct Hx as [-> | Hx].
  - exists 0%nat, pool. split; [simpl; lia | reflexivity].
  - destruct (IH Hx) as (j & rest & Hj & E).
    exists (S j), (y :: rest). split; [simpl; lia |].
    simpl. rewrite E. reflexivity.
Qed.


Lemma draw_ext (rng1 rng2 : Rng) (k : nat) :
  forall (i : nat) (pool : list A),
    (forall m : nat, (i <= m)%nat -> rng1 m = rng2 m) ->
    draw rng1 i k pool = draw rng2 i k pool.
Proof.
  induction k as [| k IH]; intros i pool H; simpl; [reflexivity |].
  rewrite (H i) by lia.
  destruct (take_at (rng2 i mod length pool) pool) as [[x rest] |];
    [| reflexivity].
  f_equal. apply IH. intros m Hm. apply H. lia.
Qed.

Lemma draw_reaches_every_arrangement (target : list A) :
  forall (pool : list A) (i : nat),
    NoDup pool -> NoDup target -> incl target pool ->
    exists rng : Rng, draw rng i (length target) pool = target.
Proof.
  induction target as [| t target IH]; intros pool i Hp Ht Hincl.
  - exists (fun _ => 0%nat). reflexivity.
  - destruct (take_at_In t pool) as (j & rest & Hj & E).
    { apply Hincl. left. reflexivity. }
    pose proof (take_at_perm _ _ _ _ E) as Hperm.
    pose proof (Permutation_NoDup Hperm Hp) as Hnd.
    inversion Hnd as [| ? ? Hnotin Hrest]; subst.
    inversion Ht as [| ? ? Htnotin Htarget]; subst.
    destruct (IH rest (S i) Hrest Htarget) as (rng0 & E0).
    { intros x Hx.
      assert (Hx' : In x (t :: rest)).
      { eapply Permutation_in; [exact Hperm |]. apply Hincl. right. exact Hx. }
      destruct Hx' as [-> | Hx']; [contradiction | exact Hx']. }
    exists (fun m => if Nat.eqb m i then j else rng0 m).
    simpl. rewrite Nat.eqb_refl, (Nat.mod_small j) by exact Hj.
    rewrite E. f_equal.
    transitivity (draw rng0 (S i) (length target) rest); [| exact E0].
    apply draw_ext. intros m Hm.
    destruct (Nat.eqb_spec m i); [lia | reflexivity].
Qed.

End DrawArrangements.


Lemma random_sample_ok {A : Type} (rng : Rng) (population : list A) (k : Z) :
  0 <= k <= len population ->
  random_sample rng population k = Ok (draw rng 0 (Z.to_nat k) population).
Proof.
  intros [H0 Hn]. unfold random_sample.
  destruct (Z.leb_spec 0 k); [| lia].
  destruct (Z.leb_spec k (len population)); [| lia].
  reflexivity.
Qed.

Lemma random_sample_negative {A : Type} (rng : Rng) (population : list A)
  (k : Z) :
  k < 0 -> exists e, random_sample rng population k = Raise e.
Proof.
  intros Hk. unfold random_sample.
  destruct (Z.leb_spec 0 k); [lia |]. simpl. eauto.
Qed.

(** ** The cross-product *)

Import App.

Lemma in_all_pairs (posts1 posts2 : list str) (x : Pair) :
  In x (all_pairs posts1 posts2) <-> In (fst x) posts1 /\ In (snd x) posts2.
Proof.
  unfold all_pairs. rewrite in_flat_map. split.
  - intros (a & Ha & Hx). apply in_map_iff in Hx.
    destruct Hx as (b & E & Hb). subst x. simpl. split; assumption.
  - intros [Ha Hb]. exists (fst x). split; [exact Ha |].
    apply in_map_iff. exists (snd x). split; [| exact Hb].
    destruct x; reflexivity.
Qed.

Lemma length_all_pairs (posts1 posts2 : list str) :
  length (all_pairs posts1 posts2) = (length posts1 * length posts2)%nat.
Proof.
  unfold all_pairs. induction posts1 as [| a posts1 IH].
  - reflexivity.
  - cbn [flat_map]. rewrite length_app, length_map.
    cbn [length Nat.mul]. f_equal. exact IH.
Qed.

Lemma all_pairs_nil_l (posts2 : list str) : all_pairs [] posts2 = [].
Proof. reflexivity. Qed.

Lemma all_pairs_nil_r (posts1 : list str) : all_pairs posts1 [] = [].
Proof.
  unfold all_pairs. induction posts1 as [| a posts1 IH]; simpl;
    [reflexivity | exact IH].
Qed.

(** The enumeration is [posts1]-major, [posts2]-minor. *)
Lemma nth_error_all_pairs (posts1 posts2 : list str) :
  forall (i j : nat) (a b : str),
    nth_error posts1 i = Some a ->
    nth_error posts2 j = Some b ->
    nth_error (all_pairs posts1 posts2) (i * length posts2 + j) = Some (a, b).
Proof.
  unfold all_pairs.
  induction posts1 as [| x posts1 IH]; intros i j a b Ha Hb.
  - destruct i; discriminate.
  - simpl. destruct i as [| i]; simpl in Ha.
    + inversion Ha; subst x. simpl.
      rewrite nth_error_app1.
      * rewrite nth_error_map, Hb. reflexivity.
      * rewrite length_map. apply nth_error_Some. congruence.
    + rewrite nth_error_app2 by (rewrite length_map; simpl; lia).
      rewrite length_map.
      replace (S i * length posts2 + j - length posts2)%nat
        with (i * length posts2 + j)%nat by (simpl; lia).
      apply IH; assumption.
Qed.

(** ** The sampler *)

Lemma half_bounds (n : Z) : 0 <= n -> 0 <= n / 2 /\ 2 * (n / 2) <= n.
Proof.
  intros Hn. split.
  - apply Z.div_pos; lia.
  - apply Z.mul_div_le. lia.
Qed.

Lemma random_pairs_eq (rng : Rng) (posts1 posts2 : list str) (n : Z) :
  0 <= n ->
  random_pairs rng posts1 posts2 n =
  Ok (draw rng 0 (Z.to_nat (Z.min (n / 2) (len (all_pairs posts1 posts2))))
        (all_pairs posts1 posts2)).
Proof.
  intros Hn. unfold random_pairs.
  destruct (half_bounds n Hn) as [H0 _].
  apply random_sample_ok. unfold len. lia.
Qed.

Lemma len_draw_min (rng : Rng) (P : list Pair) (h : Z) :
  0 <= h -> len (draw rng 0 (Z.to_nat (Z.min h (len P))) P) = Z.min h (len P).
Proof.
  intros Hh. unfold len. rewrite draw_length; lia.
Qed.

Lemma longest_pairs_eq (posts1 posts2 : list str) (n : Z) :
  0 <= n ->
  longest_pairs posts1 posts2 n =
  firstn (Z.to_nat (n / 2)) (sorted_pairs posts1 posts2).
Proof.
  intros Hn. unfold longest_pairs.
  apply slice_to_nonneg. apply half_bounds. exact Hn.
Qed.

Lemma sample_pairs_eq (rng : Rng) (posts1 posts2 : list str) (n : Z) :
  0 <= n ->
  sample_pairs rng posts1 posts2 n =
  Ok (draw rng 0 (Z.to_nat (Z.min (n / 2) (len (all_pairs posts1 posts2))))
        (all_pairs posts1 posts2)
      ++ firstn (Z.to_nat (n / 2)) (sorted_pairs posts1 posts2)).
Proof.
  intros Hn. unfold sample_pairs.
  rewrite random_pairs_eq by exact Hn. simpl.
  rewrite longest_pairs_eq by exact Hn. reflexivity.
Qed.

Lemma len_sample_pairs_le (rng : Rng) (posts1 posts2 : list str) (n : Z) :
  0 <= n ->
  len (draw rng 0 (Z.to_nat (Z.min (n / 2) (len (all_pairs posts1 posts2))))
         (all_pairs posts1 posts2)
       ++ firstn (Z.to_nat (n / 2)) (sorted_pairs posts1 posts2)) <= n.
Proof.
  intros Hn. destruct (half_bounds n Hn) as [H0 H2].
  rewrite len_app, len_draw_min by exact H0.
  unfold len at 2. rewrite length_firstn. lia.
Qed.

(** For a count that is not negative the final slice cuts nothing. *)
Lemma sample_eq (rng : Rng) (posts1 posts2 : list str) (n : Z) :
  0 <= n ->
  sample rng posts1 posts2 n =
  Ok (draw rng 0 (Z.to_nat (Z.min (n / 2) (len (all_pairs posts1 posts2))))
        (all_pairs posts1 posts2)
      ++ firstn (Z.to_nat (n / 2)) (sorted_pairs posts1 posts2)).
Proof.
  intros Hn. unfold sample.
  rewrite sample_pairs_eq by exact Hn. simpl.
  rewrite slice_to_all; [reflexivity |].
  apply len_sample_pairs_le. exact Hn.
Qed.

(** A negative count makes [random.sample] raise. *)
Lemma sample_negative (rng : Rng) (posts1 posts2 : list str) (n : Z) :
  n < 0 -> exists e, sample rng posts1 posts2 n = Raise e.
Proof.
  intros Hn. unfold sample, sample_pairs, random_pairs.
  destruct (random_sample_negative rng (all_pairs posts1 posts2)
              (Z.min (n / 2) (len (all_pairs posts1 posts2)))) as (e & E).
  - assert (n / 2 < 0) by (apply Z.div_lt_upper_bound; lia). lia.
  - rewrite E. simpl. eauto.
Qed.



Lemma sorted_pairs_In (posts1 posts2 : list str) (x : Pair) :
  In x (sorted_pairs posts1 posts2) -> In x (all_pairs posts1 posts2).
Proof.
  apply Permutation_in. apply Permutation_sym, sorted_desc_perm.
Qed.

Lemma firstn_In {A : Type} (n : nat) (l : list A) (x : A) :
  In x (firstn n l) -> In x l.
Proof.
  intros Hx. rewrite <- (firstn_skipn n l). apply in_or_app. left. exact Hx.
Qed.

(** C2: for non-empty corpora and [num_samples >= 2] the sampler returns at
    most [num_samples] pairs (and at least one), each made of an element of
    the first corpus and an element of the second. *)
Theorem sample_bounded_and_from_corpora (rng : Rng) (posts1 posts2 : list str)
  (num_samples : Z) :
  posts1 <> [] -> posts2 <> [] -> 2 <= num_samples ->
  exists s : list Pair,
    sample rng posts1 posts2 num_samples = Ok s /\
    len s <= num_samples /\
    Forall (fun x => In (fst x) posts1 /\ In (snd x) posts2) s /\
    1 <= len s.
Proof.
  intros H1 H2 Hn.
  assert (Hn0 : 0 <= num_samples) by lia.
  destruct (half_bounds num_samples Hn0) as [H0 _].
  eexists. split; [apply sample_eq; exact Hn0 |].
  split; [apply len_sample_pairs_le; exact Hn0 |].
  split.
  - apply Forall_forall. intros x Hx. apply in_all_pairs.
    apply in_app_or in Hx. destruct Hx as [Hx | Hx].
    + eapply draw_incl. exact Hx.
    + apply sorted_pairs_In. eapply firstn_In. exact Hx.
  - rewrite len_app, len_draw_min by exact H0.
    assert (1 <= num_samples / 2) by (apply Z.div_le_lower_bound; lia).
    assert (1 <= len (all_pairs posts1 posts2)).
    { unfold len. rewrite length_all_pairs.
      destruct posts1; [congruence |]. destruct posts2; [congruence |].
      simpl. lia. }
    unfold len at 2. lia.
Qed.

Lemma sample_bounded_and_from_corpora_witness :
  alice <> [] /\ bob <> [] /\ 2 <= 4 /\
  exists s : list Pair,
    sample rng_sevens alice bob 4 = Ok s /\
    len s <= 4 /\
    Forall (fun x => In (fst x) alice /\ In (snd x) bob) s /\
    1 <= len s.
Proof.
  assert (Ha : alice <> []) by discriminate.
  assert (Hb : bob <> []) by discriminate.
  assert (Hn : 2 <= 4) by lia.
  split; [exact Ha |]. split; [exact Hb |]. split; [exact Hn |].
  exact (sample_bounded_and_from_corpora rng_sevens alice bob 4 Ha Hb Hn).
Defined.

(** C5: for fixed corpora and [num_samples], two calls of the sampler, each
    with its own random generator, return the same longest-pairs portion
    after a random portion of the same length [k1]. *)
Theorem longest_half_deterministic (rng1 rng2 : Rng)
  (posts1 posts2 : list str) (num_samples : Z) :
  0 <= num_samples ->
  let k1 := Z.min (num_samples / 2) (len (all_pairs posts1 posts2)) in
  exists r1 r2 : list Pair,
    sample rng1 posts1 posts2 num_samples =
      Ok (r1 ++ longest_pairs posts1 posts2 num_samples) /\
    sample rng2 posts1 posts2 num_samples =
      Ok (r2 ++ longest_pairs posts1 posts2 num_samples) /\
    random_pairs rng1 posts1 posts2 num_samples = Ok r1 /\
    random_pairs rng2 posts1 posts2 num_samples = Ok r2 /\
    len r1 = k1 /\ len r2 = k1.
Proof.
  intros Hn k1.
  destruct (half_bounds num_samples Hn) as [H0 _].
  exists (draw rng1 0 (Z.to_nat k1) (all_pairs posts1 posts2)),
         (draw rng2 0 (Z.to_nat k1) (all_pairs posts1 posts2)).
  rewrite longest_pairs_eq by exact Hn.
  repeat split.
  - apply sample_eq; exact Hn.
  - apply sample_eq; exact Hn.
  - apply random_pairs_eq; exact Hn.
  - apply random_pairs_eq; exact Hn.
  - apply len_draw_min; exact H0.
  - apply len_draw_min; exact H0.
Qed.

Lemma longest_half_deterministic_witness :
  0 <= 4 /\
  exists r1 r2 : list Pair,
    sample rng_sevens alice bob 4 = Ok (r1 ++ longest_pairs alice bob 4) /\
    sample rng_zeros alice bob 4 = Ok (r2 ++ longest_pairs alice bob 4) /\
    len r1 = 2 /\ len r2 = 2.
Proof.
  split; [lia |].
  destruct (longest_half_deterministic rng_sevens rng_zeros alice bob 4)
    as (r1 & r2 & E1 & E2 & _ & _ & L1 & L2); [lia |].
  exists r1, r2. repeat split; assumption.
Defined.

(** The random portion does differ between two generators. *)
Example random_half_may_differ :
  random_pairs rng_sevens alice bob 4 <> random_pairs rng_zeros alice bob 4.
Proof. vm_compute. discriminate. Qed.

(** C6: the longest-pairs selection is a prefix of the cross-product sorted
    by [len(a) + len(b)] descending: a rearrangement of the cross-product
    in which combined lengths never increase and in which the pairs of each
    combined length are in the order of the cross-product, whose
    enumeration is first-corpus-major, second-corpus-minor. *)
Theorem longest_selection_stable_descending (posts1 posts2 : list str) :
  let P := all_pairs posts1 posts2 in
  let S := sorted_pairs posts1 posts2 in
  Permutation P S /\
  StronglySorted (key_ge combined_length) S /\
  (forall k : Z, with_key combined_length k S = with_key combined_length k P) /\
  (forall (i j : nat) (a b : str),
      nth_error posts1 i = Some a ->
      nth_error posts2 j = Some b ->
      nth_error P (i * length posts2 + j) = Some (a, b)) /\
  (forall num_samples : Z,
      0 <= num_samples ->
      longest_pairs posts1 posts2 num_samples =
      firstn (Z.to_nat (num_samples / 2)) S).
Proof.
  intros P S. unfold S, sorted_pairs. fold P.
  split; [apply sorted_desc_perm |].
  split; [apply sorted_desc_sorted |].
  split; [intros k; apply sorted_desc_stable |].
  split; [apply nth_error_all_pairs |].
  intros n Hn. apply longest_pairs_eq. exact Hn.
Qed.

Lemma longest_selection_stable_descending_witness :
  nth_error (all_pairs alice bob) (1 * length bob + 2)
  = Some (lit "bbb", lit "eeee") /\
  longest_pairs alice bob 4 = firstn 2 (sorted_pairs alice bob).
Proof.
  destruct (longest_selection_stable_descending alice bob)
    as (_ & _ & _ & Hnth & Hlong).
  split.
  - apply Hnth; reflexivity.
  - apply (Hlong 4). lia.
Defined.

(** C8: when either corpus is empty the sampler returns the empty sample
    and raises nothing (for a sample count that is not negative). *)
Theorem sample_empty_corpus (rng : Rng) (posts1 posts2 : list str)
  (num_samples : Z) :
  posts1 = [] \/ posts2 = [] ->
  0 <= num_samples ->
  sample rng posts1 posts2 num_samples = Ok [].
Proof.
  intros He Hn. rewrite sample_eq by exact Hn.
  assert (HP : all_pairs posts1 posts2 = []).
  { destruct He; subst; [apply all_pairs_nil_l | apply all_pairs_nil_r]. }
  unfold sorted_pairs. rewrite HP. simpl.
  rewrite draw_nil, firstn_nil. reflexivity.
Qed.

Lemma sample_empty_corpus_witness :
  ([] = @nil str \/ [lit "x"] = []) /\ 0 <= 10 /\
  sample rng_sevens [] [lit "x"] 10 = Ok [].
Proof.
  assert (He : [] = @nil str \/ [lit "x"] = []) by (left; reflexivity).
  assert (Hn : 0 <= 10) by lia.
  split; [exact He |]. split; [exact Hn |].
  exact (sample_empty_corpus rng_sevens [] [lit "x"] 10 He Hn).
Defined.

(** C10: for [num_samples = 1] the sampler returns the empty sample,
    whatever the corpora: both halves take [1 // 2 = 0] entries. *)
Theorem sample_one_is_empty (rng : Rng) (posts1 posts2 : list str) :
  random_pairs rng posts1 posts2 1 = Ok [] /\
  longest_pairs posts1 posts2 1 = [] /\
  sample rng posts1 posts2 1 = Ok [].
Proof.
  assert (H1 : 0 <= 1) by lia.
  assert (Hk : Z.to_nat (Z.min (1 / 2) (len (all_pairs posts1 posts2))) = 0%nat).
  { change (1 / 2) with 0. unfold len. lia. }
  split; [| split].
  - rewrite random_pairs_eq by exact H1. rewrite Hk. reflexivity.
  - rewrite longest_pairs_eq by exact H1. reflexivity.
  - rewrite sample_eq by exact H1. rewrite Hk. reflexivity.
Qed.

(** ** The prompt composer *)

Lemma shown_short (p : str) : len p <= 300 -> shown p = p.
Proof.
  intros Hp. unfold shown. rewrite slice_to_all by exact Hp.
  destruct (Z.ltb_spec 300 (len p)); [lia |]. apply app_nil_r.
Qed.

Lemma shown_long (p : str) :
  300 < len p -> shown p = firstn 300 p ++ lit "...".
Proof.
  intros Hp. unfold shown. rewrite slice_to_nonneg by lia.
  destruct (Z.ltb_spec 300 (len p)); [reflexivity | lia].
Qed.

Lemma numbered_blocks_cons (user1 user2 : str) (i : nat) (x : Pair)
  (items : list Pair) :
  numbered_blocks user1 user2 i (x :: items) =
  pair_block user1 user2 i x ++ numbered_blocks user1 user2 (S i) items.
Proof. reflexivity. Qed.

Lemma pairs_loop_text (user1 user2 : str) (items : list Pair) :
  forall (i : nat) (st : locals),
    l_pairs_text (pairs_loop user1 user2 i items st) =
    l_pairs_text st ++ numbered_blocks user1 user2 i items.
Proof.
  induction items as [| x items IH]; intros i st.
  - symmetry. apply app_nil_r.
  - cbn [pairs_loop]. rewrite IH, numbered_blocks_cons.
    unfold loop_body. cbn [l_pairs_text].
    rewrite <- app_assoc. reflexivity.
Qed.

Lemma pairs_loop_keeps_sample (user1 user2 : str) (items : list Pair) :
  forall (i : nat) (st : locals),
    l_sample_pairs (pairs_loop user1 user2 i items st) = l_sample_pairs st.
Proof.
  induction items as [| x items IH]; intros i st.
  - reflexivity.
  - cbn [pairs_loop]. rewrite IH. reflexivity.
Qed.

Lemma numbered_blocks_nth (user1 user2 : str) (items : list Pair) :
  forall (i k : nat) (x : Pair),
    nth_error items k = Some x ->
    exists pre post : str,
      numbered_blocks user1 user2 i items =
      pre ++ pair_block user1 user2 (i + k) x ++ post.
Proof.
  induction items as [| y items IH]; intros i k x Hk.
  - destruct k; discriminate.
  - rewrite numbered_blocks_cons.
    destruct k as [| k]; cbn [nth_error] in Hk.
    + inversion Hk; subst y. exists [].
      exists (numbered_blocks user1 user2 (S i) items).
      rewrite Nat.add_0_r. reflexivity.
    + destruct (IH (S i) k x Hk) as (pre & post & E).
      exists (pair_block user1 user2 i y ++ pre), post.
      rewrite E. rewrite <- app_assoc.
      replace (S i + k)%nat with (i + S k)%nat by lia. reflexivity.
Qed.

(** C7: in the composed prompt the [i]-th sampled pair appears as the block
    numbered [i], whose two lines show each body through [shown]: a body of
    more than 300 characters as its first 300 characters followed by
    [...], a body of at most 300 characters as it is; and after the
    prompt is composed the sample is the one that was passed in. *)
Theorem prompt_shows_truncated_bodies (user1 user2 : str)
  (sample_pairs : list Pair) (num_samples : Z) :
  let st := fst (compose user1 user2 sample_pairs num_samples) in
  let prompt := snd (compose user1 user2 sample_pairs num_samples) in
  (forall (i : nat) (x : Pair),
      nth_error (slice_to sample_pairs num_samples) i = Some x ->
      exists pre post : str,
        prompt =
        pre
        ++ ([10%N] ++ lit "**Pair " ++ str_of_nat (S i) ++ lit ":**" ++ [10%N])
        ++ (bullet ++ user1 ++ lit ": " ++ shown (fst x) ++ [10%N])
        ++ (bullet ++ user2 ++ lit ": " ++ shown (snd x) ++ [10%N])
        ++ post) /\
  (forall p : str,
      300 < len p ->
      shown p = firstn 300 p ++ lit "..." /\ length (firstn 300 p) = 300%nat) /\
  (forall p : str, len p <= 300 -> shown p = p) /\
  l_sample_pairs st = sample_pairs.
Proof.
  intros st prompt. unfold st, prompt, compose. cbn [fst snd].
  split; [| split; [| split]].
  - intros i x Hx. rewrite pairs_loop_text. cbn [l_pairs_text app].
    destruct (numbered_blocks_nth user1 user2 _ 1 i x Hx) as (pre & post & E).
    rewrite E.
    exists (prompt_head ++ user1 ++ prompt_and ++ user2 ++ prompt_samples
            ++ pre), (post ++ prompt_task).
    unfold pair_block. cbn [Nat.add].
    repeat rewrite <- app_assoc. reflexivity.
  - intros p Hp. split; [apply shown_long; exact Hp |].
    rewrite length_firstn. unfold len in Hp. lia.
  - apply shown_short.
  - rewrite pairs_loop_keeps_sample. reflexivity.
Qed.

Lemma prompt_shows_truncated_bodies_witness :
  shown long_body = firstn 300 long_body ++ lit "..." /\
  shown (lit "hello") = lit "hello" /\
  exists pre post : str,
    snd (compose (lit "al") (lit "bo") [(long_body, lit "hello")] 4) =
    pre
    ++ ([10%N] ++ lit "**Pair " ++ str_of_nat 1 ++ lit ":**" ++ [10%N])
    ++ (bullet ++ lit "al" ++ lit ": " ++ shown long_body ++ [10%N])
    ++ (bullet ++ lit "bo" ++ lit ": " ++ shown (lit "hello") ++ [10%N])
    ++ post.
Proof.
  destruct (prompt_shows_truncated_bodies (lit "al") (lit "bo")
              [(long_body, lit "hello")] 4) as (Hin & Hlong & Hshort & _).
  split; [| split].
  - apply Hlong. vm_compute. reflexivity.
  - apply Hshort. vm_compute. discriminate.
  - apply (Hin 0%nat (long_body, lit "hello")). reflexivity.
Defined.

(** ** The provider registry *)

Import LLMProvider.

Lemma get_provider_known (w : world) (provider_name : str)
  (c : provider_class) :
  dict_get providers (lower provider_name) = Some c ->
  get_provider w provider_name = init w c.
Proof. intros E. unfold get_provider. rewrite E. reflexivity. Qed.

Lemma get_provider_unknown (w : world) (provider_name : str) :
  dict_get providers (lower provider_name) = None ->
  get_provider w provider_name =
  Raise (ValueError (lit "Unknown provider: " ++ provider_name)).
Proof. intros E. unfold get_provider. rewrite E. reflexivity. Qed.

(** Each key of the registry selects its own class. *)
Lemma providers_lookup (k : str) (c : provider_class) :
  In (k, c) providers -> dict_get providers k = Some c.
Proof.
  unfold providers. cbn [In].
  intros [E | [E | [E | [E | [E | []]]]]]; injection E as <- <-;
    vm_compute; reflexivity.
Qed.

(** C3: a name whose lower-case form is no key of the registry is refused
    with the [ValueError] [Unknown provider: <name>], in every environment,
    and no provider is built; so is [not-a-real-provider].  A name whose
    lower-case form is a key resolves to the class of that key, whatever
    the case of its letters. *)
Theorem unknown_provider_is_refused (w : world) :
  (forall provider_name : str,
      dict_get providers (lower provider_name) = None ->
      get_provider w provider_name =
      Raise (ValueError (lit "Unknown provider: " ++ provider_name))) /\
  get_provider w (lit "not-a-real-provider") =
    Raise (ValueError (lit "Unknown provider: not-a-real-provider")) /\
  (forall (k : str) (c : provider_class) (provider_name : str),
      In (k, c) providers ->
      lower provider_name = k ->
      get_provider w provider_name = init w c) /\
  (forall (name1 name2 : str) (c : provider_class),
      lower name1 = lower name2 ->
      dict_get providers (lower name1) = Some c ->
      get_provider w name1 = get_provider w name2).
Proof.
  split; [apply get_provider_unknown |].
  split; [vm_compute; reflexivity |].
  split.
  - intros k c name Hin Hk. apply get_provider_known.
    rewrite Hk. apply providers_lookup. exact Hin.
  - intros n1 n2 c Hl Hc.
    rewrite (get_provider_known w n1 c Hc).
    rewrite Hl in Hc. rewrite (get_provider_known w n2 c Hc). reflexivity.
Qed.

Lemma unknown_provider_is_refused_witness :
  get_provider world_unset (lit "Mistral") =
    Raise (ValueError (lit "Unknown provider: Mistral")) /\
  get_provider world_unset (lit "GrOq") = init world_unset GroqProvider /\
  get_provider world_unset (lit "GROQ") = get_provider world_unset (lit "groq").
Proof.
  destruct (unknown_provider_is_refused world_unset)
    as (Hunknown & _ & Hkey & Hcase).
  split; [| split].
  - apply (Hunknown (lit "Mistral")). vm_compute. reflexivity.
  - apply (Hkey (lit "groq")); [left; reflexivity | vm_compute; reflexivity].
  - apply (Hcase (lit "GROQ") (lit "groq") GroqProvider);
      vm_compute; reflexivity.
Defined.

Lemma init_without_credential (w : world) (c : provider_class) :
  truthy (getenv w (credential_var c)) = false ->
  init w c =
  Ok {| cls := c; api_key := getenv w (credential_var c);
        model := default_model c; client_of := None |}.
Proof.
  intros Ht. unfold init.
  destruct (getenv w (credential_var c)) as [[| ch key] |];
    [reflexivity | discriminate | reflexivity].
Qed.

(** C4: for a known provider name, when the credential variable is unset
    (or set to the empty string, which the constructor treats alike) the
    provider is built with no client and every call of [generate] on it
    raises the [ValueError] [<variable> not set]; when the credential is
    set to a key and the import of the vendor library raises
    [ImportError], the construction itself raises [ImportError]. *)
Theorem credential_and_library_failures (w : world) (provider_name : str)
  (c : provider_class) :
  dict_get providers (lower provider_name) = Some c ->
  (truthy (getenv w (credential_var c)) = false ->
   exists p : provider,
     get_provider w provider_name = Ok p /\
     cls p = c /\
     client_of p = None /\
     forall (prompt : str) (kw : kwargs),
       generate w p prompt kw =
       Raise (ValueError (credential_var c ++ lit " not set"))) /\
  (forall (key m : str),
      getenv w (credential_var c) = Some key ->
      key <> [] ->
      connect w c key (default_model c) = Raise (ImportError m) ->
      get_provider w provider_name = Raise (ImportError (install_hint c))).
Proof.
  intros Hc. rewrite (get_provider_known w provider_name c Hc). split.
  - intros Ht. rewrite (init_without_credential w c Ht).
    eexists. split; [reflexivity |].
    split; [reflexivity |]. split; [reflexivity |].
    intros prompt kw. reflexivity.
  - intros key m Hkey Hne Himp. unfold init. rewrite Hkey.
    destruct key as [| ch key]; [congruence |].
    rewrite Himp. reflexivity.
Qed.

Lemma credential_and_library_failures_witness :
  (exists p : provider,
      get_provider world_unset (lit "groq") = Ok p /\
      client_of p = None /\
      generate world_unset p (lit "hi")
        {| kw_model := None; kw_temperature := None; kw_max_tokens := None |}
      = Raise (ValueError (lit "GROQ_API_KEY not set"))) /\
  get_provider world_no_library (lit "groq") =
    Raise (ImportError (lit "Install groq: pip install groq")).
Proof.
  assert (Hk : dict_get providers (lower (lit "groq")) = Some GroqProvider)
    by (vm_compute; reflexivity).
  split.
  - destruct (credential_and_library_failures world_unset (lit "groq")
                GroqProvider Hk) as [Hunset _].
    assert (Ht : truthy (getenv world_unset (credential_var GroqProvider))
                 = false) by reflexivity.
    destruct (Hunset Ht) as (p & Hp & _ & Hcl & Hgen).
    exists p. split; [exact Hp |]. split; [exact Hcl |].
    rewrite Hgen. vm_compute. reflexivity.
  - destruct (credential_and_library_failures world_no_library (lit "groq")
                GroqProvider Hk) as [_ Hlib].
    rewrite (Hlib (lit "secret") (lit "No module named"));
      [| reflexivity | discriminate | reflexivity].
    vm_compute. reflexivity.
Defined.

(** ** The corpus fetch *)

Import RedditScraper.

Lemma fetch_with_swallows (w : api) (r : session) (username : str)
  (limit : Z) (e : exn) :
  submissions_new w r username (limit / 2) = Raise e \/
  comments_new w r username (limit / 2) = Raise e ->
  fetch_with w r username limit = Ok [].
Proof.
  intros H. unfold fetch_with, collect.
  destruct H as [H | H].
  - rewrite H. reflexivity.
  - destruct (submissions_new w r username (limit / 2)); [| reflexivity].
    simpl. rewrite H. reflexivity.
Qed.

Lemma fetch_with_no_content (w : api) (r : session) (username : str)
  (limit : Z) (subs : list submission) (coms : list comment) :
  submissions_new w r username (limit / 2) = Ok subs ->
  comments_new w r username (limit / 2) = Ok coms ->
  keep submission_row subs = [] ->
  keep comment_row coms = [] ->
  fetch_with w r username limit = Ok [].
Proof.
  intros Hs Hc Ks Kc. unfold fetch_with, collect.
  rewrite Hs. simpl. rewrite Hc. simpl. rewrite Ks, Kc. reflexivity.
Qed.

Lemma fetch_with_returns (w : api) (r : session) (username : str)
  (limit : Z) :
  exists df : DataFrame, fetch_with w r username limit = Ok df.
Proof.
  unfold fetch_with.
  destruct (collect w r username limit); eexists; reflexivity.
Qed.

(** C9, as the code has it: the fetch raises (a [ValueError], which its
    caller [fetch_reddit_posts] passes on as it is) when no session exists
    and a credential is missing; once a session exists, whatever is raised
    while the listings are read (the account does not exist, the API cannot
    be reached) is swallowed and the empty table is returned, as it is when
    the listings hold no qualifying content; the fetch raises only for
    missing credentials or a failing [praw.Reddit] constructor, whose
    exception it does raise. *)
Theorem fetch_raises_only_without_session (w : api) (self : scraper)
  (username : str) (limit : Z) :
  (reddit self = None ->
   truthy (client_id self) && truthy (client_secret self) = false ->
   snd (fetch_user_posts w self username limit) =
   Raise (ValueError credentials_required)) /\
  (forall (r : session) (e : exn),
      reddit self = Some r ->
      submissions_new w r username (limit / 2) = Raise e \/
      comments_new w r username (limit / 2) = Raise e ->
      snd (fetch_user_posts w self username limit) = Ok []) /\
  (forall (r : session) (subs : list submission) (coms : list comment),
      reddit self = Some r ->
      submissions_new w r username (limit / 2) = Ok subs ->
      comments_new w r username (limit / 2) = Ok coms ->
      keep submission_row subs = [] ->
      keep comment_row coms = [] ->
      snd (fetch_user_posts w self username limit) = Ok []) /\
  (forall (c d : char) (id secret : str) (r : session),
      reddit self = None ->
      client_id self = Some (c :: id) ->
      client_secret self = Some (d :: secret) ->
      Reddit w (c :: id) (d :: secret) (user_agent self) (Some false) = Ok r ->
      snd (fetch_user_posts w self username limit) =
      fetch_with w r username limit /\
      exists df : DataFrame, fetch_with w r username limit = Ok df) /\
  (forall e : exn,
      snd (fetch_user_posts w self username limit) = Raise e ->
      reddit self = None /\
      (e = ValueError credentials_required \/
       exists id secret : str,
         Reddit w id secret (user_agent self) (Some false) = Raise e)) /\
  (forall (c d : char) (id secret : str) (e : exn),
      reddit self = None ->
      client_id self = Some (c :: id) ->
      client_secret self = Some (d :: secret) ->
      Reddit w (c :: id) (d :: secret) (user_agent self) (Some false)
      = Raise e ->
      snd (fetch_user_posts w self username limit) = Raise e) /\
  (forall secrets : str -> option str,
      truthy (secrets (lit "REDDIT_CLIENT_ID"))
      && truthy (secrets (lit "REDDIT_CLIENT_SECRET")) = false ->
      App.fetch_reddit_posts w secrets username limit =
      Raise (ValueError credentials_required)).
Proof.
  assert (Hcaller :
    forall secrets : str -> option str,
      truthy (secrets (lit "REDDIT_CLIENT_ID"))
      && truthy (secrets (lit "REDDIT_CLIENT_SECRET")) = false ->
      App.fetch_reddit_posts w secrets username limit =
      Raise (ValueError credentials_required)).
  { intros secrets Ht. unfold App.fetch_reddit_posts, init, fetch_user_posts.
    destruct (secrets (lit "REDDIT_CLIENT_ID")) as [[| c id] |];
      destruct (secrets (lit "REDDIT_CLIENT_SECRET")) as [[| d secret] |];
      try reflexivity; discriminate. }
  unfold fetch_user_posts.
  split; [| split; [| split; [| split; [| split; [| split; [| exact Hcaller]]]]]].
  6: { intros c d id secret e Hr Hi Hs He. rewrite Hr, Hi, Hs, He.
       reflexivity. }
  - intros Hr Ht. rewrite Hr.
    destruct (client_id self) as [[| c id] |];
      destruct (client_secret self) as [[| d secret] |];
      try reflexivity; discriminate.
  - intros r e Hr He. rewrite Hr. simpl.
    eapply fetch_with_swallows. exact He.
  - intros r subs coms Hr Hs Hc Ks Kc. rewrite Hr. simpl.
    eapply fetch_with_no_content; eassumption.
  - intros c d id secret r Hr Hi Hs Hok. rewrite Hr, Hi, Hs, Hok. simpl.
    split; [reflexivity | apply fetch_with_returns].
  - intros e He.
    destruct (reddit self) as [r |].
    + simpl in He. destruct (fetch_with_returns w r username limit) as (df & E).
      rewrite E in He. discriminate.
    + split; [reflexivity |].
      destruct (client_id self) as [[| c id] |];
        destruct (client_secret self) as [[| d secret] |];
        simpl in He; try (left; congruence).
      right. exists (c :: id), (d :: secret).
      destruct (Reddit w (c :: id) (d :: secret) (user_agent self)
                  (Some false)) as [r | e'].
      * simpl in He.
        destruct (fetch_with_returns w r username limit) as (df & E).
        rewrite E in He. discriminate.
      * simpl in He. congruence.
Qed.

Lemma fetch_raises_only_without_session_witness :
  snd (fetch_user_posts api_no_account scraper_bare (lit "ghost") 100) =
    Raise (ValueError credentials_required) /\
  snd (fetch_user_posts api_no_account scraper_ready (lit "ghost") 100) =
    Ok [] /\
  App.fetch_reddit_posts api_no_account secrets_unset (lit "ghost") 100 =
    Raise (ValueError credentials_required) /\
  snd (fetch_user_posts api_no_session scraper_lazy (lit "ghost") 100) =
    Raise no_session.
Proof.
  split; [| split; [| split]].
  - apply (proj1 (fetch_raises_only_without_session api_no_account
                    scraper_bare (lit "ghost") 100)); reflexivity.
  - destruct (fetch_raises_only_without_session api_no_account
                scraper_ready (lit "ghost") 100) as (_ & Hsw & _).
    eapply (Hsw _ not_found); [reflexivity | left; reflexivity].
  - destruct (fetch_raises_only_without_session api_no_account
                scraper_ready (lit "ghost") 100)
      as (_ & _ & _ & _ & _ & _ & Hcaller).
    apply Hcaller. reflexivity.
  - destruct (fetch_raises_only_without_session api_no_session
                scraper_lazy (lit "ghost") 100)
      as (_ & _ & _ & _ & _ & Hctor & _).
    eapply Hctor; reflexivity.
Defined.

(** C9 as stated fails: for an account that does not exist (both listings
    raise the API's not-found error) and with credentials present, the
    fetch returns the empty table and raises nothing, through the caller
    as well. *)
Lemma fetch_swallows_missing_account :
  (forall r : session,
      submissions_new api_no_account r (lit "ghost") (100 / 2) =
      Raise not_found) /\
  snd (fetch_user_posts api_no_account scraper_ready (lit "ghost") 100) =
    Ok [] /\
  App.fetch_reddit_posts api_no_account secrets_set (lit "ghost") 100 =
    Ok [] /\
  ~ (exists e : exn,
        snd (fetch_user_posts api_no_account scraper_ready (lit "ghost") 100)
        = Raise e).
Proof.
  split; [intros r; reflexivity |].
  split; [vm_compute; reflexivity |].
  split; [vm_compute; reflexivity |].
  intros (e & He). vm_compute in He. discriminate.
Qed.

(** * Further properties *)

(** ** The sampler *)

Lemma len_all_pairs (posts1 posts2 : list str) :
  len (all_pairs posts1 posts2) = len posts1 * len posts2.
Proof. unfold len. rewrite length_all_pairs. lia. Qed.

Lemma draw_all_perm {A : Type} (rng : Rng) (i : nat) (pool : list A) :
  Permutation pool (draw rng i (length pool) pool).
Proof.
  destruct (draw_perm rng (length pool) i pool) as (rest & Hp).
  pose proof (Permutation_length Hp) as Hl.
  rewrite length_app, draw_length in Hl by lia.
  destruct rest; [| simpl in Hl; lia].
  rewrite app_nil_r in Hp. exact Hp.
Qed.

Lemma StronglySorted_app_order {A : Type} (R : A -> A -> Prop)
  (l1 l2 : list A) (x y : A) :
  StronglySorted R (l1 ++ l2) -> In x l1 -> In y l2 -> R x y.
Proof.
  induction l1 as [| a l1 IH]; intros Hs Hx Hy; [contradiction |].
  simpl in Hs. inversion Hs as [| ? ? Hs' Hall]; subst.
  destruct Hx as [-> | Hx].
  - rewrite Forall_forall in Hall. apply Hall.
    apply in_or_app. right. exact Hy.
  - apply IH; assumption.
Qed.

(** X1: for a count that is not negative the sampler returns exactly
    [2 * min(num_samples // 2, |posts1| * |posts2|)] pairs; so an odd count
    yields at most [num_samples - 1] pairs. *)
Theorem sample_length (rng : Rng) (posts1 posts2 : list str)
  (num_samples : Z) :
  0 <= num_samples ->
  exists s : list Pair,
    sample rng posts1 posts2 num_samples = Ok s /\
    len s = 2 * Z.min (num_samples / 2) (len posts1 * len posts2) /\
    (Z.odd num_samples = true -> len s <= num_samples - 1).
Proof.
  intros Hn. destruct (half_bounds num_samples Hn) as [H0 H2].
  eexists. split; [apply sample_eq; exact Hn |].
  assert (Hlen :
    len (draw rng 0
           (Z.to_nat (Z.min (num_samples / 2)
                        (len (all_pairs posts1 posts2))))
           (all_pairs posts1 posts2)
         ++ firstn (Z.to_nat (num_samples / 2)) (sorted_pairs posts1 posts2))
    = 2 * Z.min (num_samples / 2) (len posts1 * len posts2)).
  { rewrite len_app, len_draw_min by exact H0.
    unfold len at 2. rewrite length_firstn. unfold sorted_pairs.
    rewrite <- (Permutation_length
                  (sorted_desc_perm combined_length
                     (all_pairs posts1 posts2))).
    rewrite <- len_all_pairs. unfold len. lia. }
  split; [exact Hlen |].
  intros Hodd. rewrite Hlen.
  rewrite (Zdiv2_odd_eqn num_samples) in H2 |- * at 2.
  rewrite Hodd in *. rewrite Z.div2_div in *. lia.
Qed.

Lemma sample_length_witness :
  0 <= 5 /\
  exists s : list Pair,
    sample rng_sevens alice bob 5 = Ok s /\ len s = 4 /\ len s <= 5 - 1.
Proof.
  split; [lia |].
  destruct (sample_length rng_sevens alice bob 5) as (s & Hs & Hl & Hodd);
    [lia |].
  exists s. split; [exact Hs |]. split.
  - rewrite Hl. reflexivity.
  - apply Hodd. reflexivity.
Defined.

(** X2: when the cross-product has at most [num_samples // 2] pairs, the
    sample holds every pair of the cross-product exactly twice (once from
    each half): nothing is deduplicated. *)
Theorem sample_small_corpora_doubled (rng : Rng) (posts1 posts2 : list str)
  (num_samples : Z) :
  len posts1 * len posts2 <= num_samples / 2 ->
  exists s : list Pair,
    sample rng posts1 posts2 num_samples = Ok s /\
    Permutation s (all_pairs posts1 posts2 ++ all_pairs posts1 posts2).
Proof.
  intros Hsmall. rewrite <- len_all_pairs in Hsmall.
  assert (Hn : 0 <= num_samples).
  { destruct (Z.le_gt_cases 0 num_samples) as [H | H]; [exact H |].
    assert (num_samples / 2 < 0) by (apply Z.div_lt_upper_bound; lia).
    unfold len in Hsmall. lia. }
  eexists. split; [apply sample_eq; exact Hn |].
  apply Permutation_app.
  - replace (Z.to_nat (Z.min (num_samples / 2)
                         (len (all_pairs posts1 posts2))))
      with (length (all_pairs posts1 posts2)) by (unfold len in *; lia).
    apply Permutation_sym, draw_all_perm.
  - rewrite firstn_all2.
    + apply Permutation_sym, sorted_desc_perm.
    + unfold sorted_pairs.
      rewrite <- (Permutation_length
                    (sorted_desc_perm combined_length
                       (all_pairs posts1 posts2))).
      unfold len in Hsmall. lia.
Qed.

Lemma sample_small_corpora_doubled_witness :
  len alice * len bob <= 12 / 2 /\
  exists s : list Pair,
    sample rng_sevens alice bob 12 = Ok s /\
    Permutation s (all_pairs alice bob ++ all_pairs alice bob).
Proof.
  assert (H : len alice * len bob <= 12 / 2) by (vm_compute; discriminate).
  split; [exact H |].
  exact (sample_small_corpora_doubled rng_sevens alice bob 12 H).
Defined.

(** X3: for non-empty corpora and [num_samples >= 2] the sample holds a
    pair whose combined length is the greatest of the cross-product. *)
Theorem sample_holds_a_longest_pair (rng : Rng) (posts1 posts2 : list str)
  (num_samples : Z) :
  posts1 <> [] -> posts2 <> [] -> 2 <= num_samples ->
  exists (s : list Pair) (x : Pair),
    sample rng posts1 posts2 num_samples = Ok s /\
    In x s /\
    forall y : Pair,
      In y (all_pairs posts1 posts2) ->
      combined_length y <= combined_length x.
Proof.
  intros H1 H2 Hn.
  assert (Hn0 : 0 <= num_samples) by lia.
  assert (Hhalf : 1 <= num_samples / 2)
    by (apply Z.div_le_lower_bound; lia).
  pose proof (sorted_desc_sorted combined_length (all_pairs posts1 posts2))
    as Hs.
  pose proof (sorted_desc_perm combined_length (all_pairs posts1 posts2))
    as Hp.
  fold (sorted_pairs posts1 posts2) in Hs, Hp.
  destruct (sorted_pairs posts1 posts2) as [| x rest] eqn:E.
  { apply Permutation_length in Hp. rewrite length_all_pairs in Hp.
    destruct posts1; [congruence |]. destruct posts2; [congruence |].
    simpl in Hp. lia. }
  eexists. exists x. split; [apply sample_eq; exact Hn0 |].
  rewrite E. split.
  - apply in_or_app. right.
    destruct (Z.to_nat (num_samples / 2)) eqn:Ek; [lia |].
    left. reflexivity.
  - intros y Hy. apply (Permutation_in _ Hp) in Hy.
    inversion Hs as [| ? ? _ Hall]; subst.
    destruct Hy as [<- | Hy]; [lia |].
    rewrite Forall_forall in Hall. apply Hall. exact Hy.
Qed.

Lemma sample_holds_a_longest_pair_witness :
  alice <> [] /\ bob <> [] /\ 2 <= 4 /\
  exists (s : list Pair) (x : Pair),
    sample rng_sevens alice bob 4 = Ok s /\
    In x s /\
    forall y : Pair,
      In y (all_pairs alice bob) -> combined_length y <= combined_length x.
Proof.
  assert (Ha : alice <> []) by discriminate.
  assert (Hb : bob <> []) by discriminate.
  assert (Hn : 2 <= 4) by lia.
  split; [exact Ha |]. split; [exact Hb |]. split; [exact Hn |].
  exact (sample_holds_a_longest_pair rng_sevens alice bob 4 Ha Hb Hn).
Defined.

(** X4: the longest half dominates what it leaves out: the sorted
    cross-product is the longest pairs followed by the rest, and no pair of
    the rest has a greater combined length than a pair of the longest
    half. *)
Theorem longest_pairs_dominate (posts1 posts2 : list str) (num_samples : Z) :
  0 <= num_samples ->
  let rest := skipn (Z.to_nat (num_samples / 2)) (sorted_pairs posts1 posts2) in
  Permutation (all_pairs posts1 posts2)
    (longest_pairs posts1 posts2 num_samples ++ rest) /\
  forall x y : Pair,
    In x (longest_pairs posts1 posts2 num_samples) ->
    In y rest ->
    combined_length y <= combined_length x.
Proof.
  intros Hn rest. rewrite longest_pairs_eq by exact Hn. unfold rest.
  rewrite firstn_skipn. split; [apply sorted_desc_perm |].
  intros x y Hx Hy.
  apply (StronglySorted_app_order (key_ge combined_length)
           (firstn (Z.to_nat (num_samples / 2)) (sorted_pairs posts1 posts2))
           (skipn (Z.to_nat (num_samples / 2)) (sorted_pairs posts1 posts2)));
    [| exact Hx | exact Hy].
  rewrite firstn_skipn. apply sorted_desc_sorted.
Qed.

Lemma longest_pairs_dominate_witness :
  0 <= 4 /\
  forall x y : Pair,
    In x (longest_pairs alice bob 4) ->
    In y (skipn 2 (sorted_pairs alice bob)) ->
    combined_length y <= combined_length x.
Proof.
  split; [lia |].
  apply (longest_pairs_dominate alice bob 4). lia.
Defined.

(** ** The analysis call *)

Lemma sample_pairs_negative (rng : Rng) (posts1 posts2 : list str) (n : Z) :
  n < 0 ->
  sample_pairs rng posts1 posts2 n =
  Raise (ValueError (lit "Sample larger than population or is negative")).
Proof.
  intros Hn. unfold sample_pairs, random_pairs, random_sample.
  assert (n / 2 < 0) by (apply Z.div_lt_upper_bound; lia).
  destruct (Z.leb_spec 0 (Z.min (n / 2) (len (all_pairs posts1 posts2))));
    [lia | reflexivity].
Qed.

(** X5: a negative sample count makes the sampler, and with a resolved
    provider the whole analysis call, raise the [ValueError] of
    [random.sample]; the provider is never asked to generate. *)
Theorem negative_count_raises (w : world) (rng : Rng) (provider_name : str)
  (posts1 posts2 : list str) (user1 user2 : str) (num_samples : Z)
  (p : provider) :
  num_samples < 0 ->
  get_provider w provider_name = Ok p ->
  sample rng posts1 posts2 num_samples =
    Raise (ValueError (lit "Sample larger than population or is negative")) /\
  generate_analysis w rng provider_name posts1 posts2 user1 user2 num_samples =
    Raise (ValueError (lit "Sample larger than population or is negative")).
Proof.
  intros Hn Hp. unfold sample, generate_analysis.
  rewrite Hp, (sample_pairs_negative rng posts1 posts2 num_samples Hn).
  split; reflexivity.
Qed.

Lemma negative_count_raises_witness :
  -1 < 0 /\
  generate_analysis world_ready rng_sevens (lit "groq") alice bob
    (lit "al") (lit "bo") (-1) =
  Raise (ValueError (lit "Sample larger than population or is negative")).
Proof.
  split; [lia |].
  assert (Hp : exists p, get_provider world_ready (lit "groq") = Ok p)
    by (eexists; vm_compute; reflexivity).
  destruct Hp as (p & Hp).
  apply (negative_count_raises world_ready rng_sevens (lit "groq") alice bob
           (lit "al") (lit "bo") (-1) p); [lia | exact Hp].
Defined.

(** X6: with a provider name the registry does not know the analysis call
    raises [Unknown provider: <name>] before anything else is looked at:
    whatever the posts, the users and the sample count. *)
Theorem analysis_unknown_provider (w : world) (rng : Rng)
  (provider_name : str) (posts1 posts2 : list str) (user1 user2 : str)
  (num_samples : Z) :
  dict_get providers (lower provider_name) = None ->
  generate_analysis w rng provider_name posts1 posts2 user1 user2 num_samples =
  Raise (ValueError (lit "Unknown provider: " ++ provider_name)).
Proof.
  intros Hk. unfold generate_analysis.
  rewrite (get_provider_unknown w provider_name Hk). reflexivity.
Qed.

Lemma analysis_unknown_provider_witness :
  generate_analysis world_ready rng_sevens (lit "Mistral") alice bob
    (lit "al") (lit "bo") (-1) =
  Raise (ValueError (lit "Unknown provider: " ++ lit "Mistral")).
Proof.
  apply analysis_unknown_provider. vm_compute. reflexivity.
Defined.

(** X7: with a known provider whose credential is unset or empty, and a
    sample count that is not negative, the analysis call raises
    [<variable> not set], whatever the posts: the sample is drawn and the
    prompt composed first, and no vendor is called. *)
Theorem analysis_without_credential (w : world) (rng : Rng)
  (provider_name : str) (c : provider_class) (posts1 posts2 : list str)
  (user1 user2 : str) (num_samples : Z) :
  dict_get providers (lower provider_name) = Some c ->
  truthy (getenv w (credential_var c)) = false ->
  0 <= num_samples ->
  generate_analysis w rng provider_name posts1 posts2 user1 user2 num_samples =
  Raise (ValueError (credential_var c ++ lit " not set")).
Proof.
  intros Hc Ht Hn. unfold generate_analysis.
  rewrite (get_provider_known w provider_name c Hc).
  rewrite (init_without_credential w c Ht).
  cbn [bind]. rewrite sample_pairs_eq by exact Hn. reflexivity.
Qed.

Lemma analysis_without_credential_witness :
  generate_analysis world_unset rng_sevens (lit "groq") alice bob
    (lit "al") (lit "bo") 4 =
  Raise (ValueError (credential_var GroqProvider ++ lit " not set")).
Proof.
  apply analysis_without_credential;
    [vm_compute; reflexivity | reflexivity | lia].
Defined.

Lemma compose_prompt (user1 user2 : str) (pairs : list Pair) (n : Z) :
  snd (compose user1 user2 pairs n) =
  prompt_head ++ user1 ++ prompt_and ++ user2 ++ prompt_samples
  ++ numbered_blocks user1 user2 1 (slice_to pairs n) ++ prompt_task.
Proof.
  unfold compose. cbn [snd]. rewrite pairs_loop_text. reflexivity.
Qed.

(** The analysis call with a client held: the one vendor call it comes
    to. *)
Lemma analysis_request (w : world) (rng : Rng)
  (provider_name : str) (p : provider) (cl : client)
  (posts1 posts2 : list str) (user1 user2 : str) (num_samples : Z) :
  get_provider w provider_name = Ok p ->
  client_of p = Some cl ->
  0 <= num_samples ->
  exists s : list Pair,
    sample rng posts1 posts2 num_samples = Ok s /\
    generate_analysis w rng provider_name posts1 posts2 user1 user2
      num_samples =
    bind
      (call w cl
         (build_request p
            (prompt_head ++ user1 ++ prompt_and ++ user2 ++ prompt_samples
             ++ numbered_blocks user1 user2 1 s ++ prompt_task)
            {| kw_model := None; kw_temperature := Some (7 # 10)%Q;
               kw_max_tokens := Some 2500 |}))
      first_text.
Proof.
  intros Hp Hcl Hn.
  eexists. split; [apply sample_eq; exact Hn |].
  unfold generate_analysis. rewrite Hp. cbn [bind].
  rewrite sample_pairs_eq by exact Hn. cbn [bind].
  rewrite compose_prompt.
  rewrite slice_to_all by (apply len_sample_pairs_le; exact Hn).
  unfold generate. rewrite Hcl. reflexivity.
Qed.

(** X8: with a provider that holds a client and a sample count that is not
    negative, the analysis call comes to one vendor request: it returns the
    text of the first completion of the answer and raises what the request
    raises.  The request carries the prompt made of the heading, the two
    user names and the blocks of the sampler's pairs numbered from 1; it
    carries [max_tokens=2500] unless the provider is Gemini,
    [temperature=0.7] unless it is Gemini or Anthropic, and the provider's
    model unless it is Gemini. *)
Theorem analysis_sends_the_sample (w : world) (rng : Rng)
  (provider_name : str) (p : provider) (cl : client)
  (posts1 posts2 : list str) (user1 user2 : str) (num_samples : Z) :
  get_provider w provider_name = Ok p ->
  client_of p = Some cl ->
  0 <= num_samples ->
  exists s : list Pair,
    sample rng posts1 posts2 num_samples = Ok s /\
    let rq :=
      {| rq_model :=
           match cls p with
           | GeminiProvider => None
           | _ => Some (model p)
           end;
         rq_prompt :=
           prompt_head ++ user1 ++ prompt_and ++ user2 ++ prompt_samples
           ++ concat (map (fun ix => pair_block user1 user2 (fst ix) (snd ix))
                        (combine (seq 1 (length s)) s))
           ++ prompt_task;
         rq_temperature :=
           match cls p with
           | GeminiProvider | AnthropicProvider => None
           | _ => Some (7 # 10)%Q
           end;
         rq_max_tokens :=
           match cls p with
           | GeminiProvider => None
           | _ => Some 2500
           end |} in
    (forall (t : str) (others : list str),
        call w cl rq = Ok (t :: others) ->
        generate_analysis w rng provider_name posts1 posts2 user1 user2
          num_samples = Ok t) /\
    (forall e : exn,
        call w cl rq = Raise e ->
        generate_analysis w rng provider_name posts1 posts2 user1 user2
          num_samples = Raise e).
Proof.
  intros Hp Hcl Hn.
  destruct (analysis_request w rng provider_name p cl posts1 posts2
              user1 user2 num_samples Hp Hcl Hn) as (s & Hs & E).
  exists s. split; [exact Hs |].
  assert (Hrq :
    build_request p
      (prompt_head ++ user1 ++ prompt_and ++ user2 ++ prompt_samples
       ++ numbered_blocks user1 user2 1 s ++ prompt_task)
      {| kw_model := None; kw_temperature := Some (7 # 10)%Q;
         kw_max_tokens := Some 2500 |} =
    {| rq_model :=
         match cls p with
         | GeminiProvider => None
         | _ => Some (model p)
         end;
       rq_prompt :=
         prompt_head ++ user1 ++ prompt_and ++ user2 ++ prompt_samples
         ++ concat (map (fun ix => pair_block user1 user2 (fst ix) (snd ix))
                      (combine (seq 1 (length s)) s))
         ++ prompt_task;
       rq_temperature :=
         match cls p with
         | GeminiProvider | AnthropicProvider => None
         | _ => Some (7 # 10)%Q
         end;
       rq_max_tokens :=
         match cls p with
         | GeminiProvider => None
         | _ => Some 2500
         end |}).
  { unfold build_request, numbered_blocks. destruct (cls p); reflexivity. }
  rewrite Hrq in E. cbv zeta. split.
  - intros t others Hc. rewrite E, Hc. reflexivity.
  - intros e Hc. rewrite E, Hc. reflexivity.
Qed.

Lemma analysis_sends_the_sample_witness :
  0 <= 4 /\
  generate_analysis world_ready rng_sevens (lit "groq") alice bob
    (lit "al") (lit "bo") 4 = Ok (lit "They would get along.") /\
  generate_analysis world_vendor_down rng_sevens (lit "groq") alice bob
    (lit "al") (lit "bo") 4 = Raise vendor_down.
Proof.
  split; [lia |].
  assert (Hp : get_provider world_ready (lit "groq") = Ok groq_provider)
    by (vm_compute; reflexivity).
  assert (Hq : get_provider world_vendor_down (lit "groq") = Ok groq_provider)
    by (vm_compute; reflexivity).
  split.
  - destruct (analysis_sends_the_sample world_ready rng_sevens (lit "groq")
                groq_provider groq_client alice bob (lit "al") (lit "bo") 4
                Hp eq_refl) as (s & _ & Hok & _); [lia |].
    apply (Hok (lit "They would get along.") []). reflexivity.
  - destruct (analysis_sends_the_sample world_vendor_down rng_sevens
                (lit "groq") groq_provider groq_client alice bob (lit "al")
                (lit "bo") 4 Hq eq_refl) as (s & _ & _ & Hraise); [lia |].
    apply Hraise. reflexivity.
Defined.

(** X9: an exception of the vendor call reaches the caller of the analysis
    as it is: nothing wraps or replaces it. *)
Theorem analysis_passes_vendor_error (w : world) (rng : Rng)
  (provider_name : str) (p : provider) (cl : client) (e : exn)
  (posts1 posts2 : list str) (user1 user2 : str) (num_samples : Z) :
  get_provider w provider_name = Ok p ->
  client_of p = Some cl ->
  0 <= num_samples ->
  (forall rq : request, call w cl rq = Raise e) ->
  generate_analysis w rng provider_name posts1 posts2 user1 user2 num_samples =
  Raise e.
Proof.
  intros Hp Hcl Hn Hcall.
  destruct (analysis_request w rng provider_name p cl posts1 posts2
              user1 user2 num_samples Hp Hcl Hn) as (s & _ & E).
  rewrite E, Hcall. reflexivity.
Qed.

Lemma analysis_passes_vendor_error_witness :
  0 <= 4 /\
  generate_analysis world_vendor_down rng_sevens (lit "groq") alice bob
    (lit "al") (lit "bo") 4 = Raise vendor_down.
Proof.
  split; [lia |].
  assert (Hp : exists p, get_provider world_vendor_down (lit "groq") = Ok p
                         /\ client_of p = Some groq_client)
    by (eexists; split; vm_compute; reflexivity).
  destruct Hp as (p & Hp & Hcl).
  apply (analysis_passes_vendor_error world_vendor_down rng_sevens
           (lit "groq") p groq_client vendor_down alice bob (lit "al")
           (lit "bo") 4 Hp Hcl); [lia | reflexivity].
Defined.

(** ** Providers *)

(** X10: a provider that [get_provider] returns belongs to the class its
    lower-cased name selects, carries that class's default model and the
    value of its credential variable, and holds a client exactly when that
    value is set and not empty; the client is the one the vendor library
    built from that key and model. *)
Theorem resolved_provider_invariant (w : world) (provider_name : str)
  (p : provider) :
  get_provider w provider_name = Ok p ->
  exists c : provider_class,
    dict_get providers (lower provider_name) = Some c /\
    cls p = c /\
    model p = default_model c /\
    api_key p = getenv w (credential_var c) /\
    (client_of p = None <-> truthy (api_key p) = false) /\
    (forall cl : client,
        client_of p = Some cl ->
        exists key : str,
          api_key p = Some key /\
          connect w c key (default_model c) = Ok cl).
Proof.
  unfold get_provider.
  destruct (dict_get providers (lower provider_name)) as [c |];
    [| discriminate].
  intros Hp. exists c. split; [reflexivity |].
  unfold LLMProvider.init in Hp.
  destruct (getenv w (credential_var c)) as [[| ch key] |] eqn:Hk.
  - injection Hp as <-. cbn.
    repeat split; try congruence; discriminate.
  - destruct (connect w c (ch :: key) (default_model c)) as [cl | e] eqn:Hc.
    + injection Hp as <-. cbn.
      split; [reflexivity |]. split; [reflexivity |].
      split; [reflexivity |]. split; [split; discriminate |].
      intros cl' Hcl. inversion Hcl; subst cl'.
      exists (ch :: key). split; [reflexivity | exact Hc].
    + destruct e; discriminate.
  - injection Hp as <-. cbn.
    repeat split; try congruence; discriminate.
Qed.

Lemma resolved_provider_invariant_witness :
  exists (p : provider) (c : provider_class),
    get_provider world_ready (lit "Cohere") = Ok p /\
    cls p = c /\ c = CohereProvider /\ model p = default_model c.
Proof.
  assert (Hp : exists p, get_provider world_ready (lit "Cohere") = Ok p)
    by (eexists; vm_compute; reflexivity).
  destruct Hp as (p & Hp).
  destruct (resolved_provider_invariant world_ready (lit "Cohere") p Hp)
    as (c & Hc & Hcls & Hm & _).
  exists p, c. split; [exact Hp |]. split; [exact Hcls |].
  split; [| exact Hm].
  vm_compute in Hc. congruence.
Defined.

(** X11: when the credential is set and building the client raises
    anything but [ImportError], the construction raises that exception
    unchanged: only [ImportError] is caught and replaced. *)
Theorem construction_passes_other_exceptions (w : world)
  (provider_name : str) (c : provider_class) (key : str) (e : exn) :
  dict_get providers (lower provider_name) = Some c ->
  getenv w (credential_var c) = Some key ->
  key <> [] ->
  connect w c key (default_model c) = Raise e ->
  (forall m : str, e <> ImportError m) ->
  get_provider w provider_name = Raise e.
Proof.
  intros Hc Hk Hne Hconn He.
  rewrite (get_provider_known w provider_name c Hc).
  unfold LLMProvider.init. rewrite Hk.
  destruct key as [| ch key]; [congruence |].
  rewrite Hconn. destruct e; try reflexivity.
  exfalso. eapply He. reflexivity.
Qed.

Lemma construction_passes_other_exceptions_witness :
  get_provider world_bad_key (lit "groq") = Raise bad_key.
Proof.
  apply (construction_passes_other_exceptions world_bad_key (lit "groq")
           GroqProvider (lit "secret") bad_key).
  - vm_compute. reflexivity.
  - reflexivity.
  - discriminate.
  - reflexivity.
  - intros m. discriminate.
Defined.

(** X12: keyword arguments a provider does not forward make no
    difference: Gemini forwards none, Anthropic no [temperature], Groq and
    Cohere no [model]. *)
Theorem keyword_arguments_dropped (w : world) (p : provider) (prompt : str) :
  (cls p = GeminiProvider ->
   forall kw1 kw2 : kwargs,
     generate w p prompt kw1 = generate w p prompt kw2) /\
  (cls p = AnthropicProvider ->
   forall (kw : kwargs) (t : option Q),
     generate w p prompt kw =
     generate w p prompt
       {| kw_model := kw_model kw; kw_temperature := t;
          kw_max_tokens := kw_max_tokens kw |}) /\
  (cls p = GroqProvider \/ cls p = CohereProvider ->
   forall (kw : kwargs) (m : option str),
     generate w p prompt kw =
     generate w p prompt
       {| kw_model := m; kw_temperature := kw_temperature kw;
          kw_max_tokens := kw_max_tokens kw |}).
Proof.
  unfold generate, build_request.
  split; [| split].
  - intros Hc kw1 kw2. rewrite Hc. reflexivity.
  - intros Hc kw t. rewrite Hc. reflexivity.
  - intros [Hc | Hc] kw m; rewrite Hc; reflexivity.
Qed.

Lemma keyword_arguments_dropped_witness :
  generate world_ready groq_provider (lit "hi") no_kwargs =
  generate world_ready groq_provider (lit "hi")
    {| kw_model := Some (lit "mixtral"); kw_temperature := None;
       kw_max_tokens := None |}.
Proof.
  apply (proj2 (proj2 (keyword_arguments_dropped world_ready groq_provider
                         (lit "hi")))
           (or_introl eq_refl) no_kwargs (Some (lit "mixtral"))).
Defined.

(** ** The shown body *)

(** X13: a shown body has the length of the body when that is at most 300
    and 303 otherwise (so a body of 301 or 302 characters is shown longer
    than it is), and showing a shown body changes nothing. *)
Theorem shown_length_and_idempotence (p : str) :
  len (shown p) = (if 300 <? len p then 303 else len p) /\
  shown (shown p) = shown p.
Proof.
  destruct (Z.ltb_spec 300 (len p)) as [Hlong | Hshort].
  - rewrite (shown_long p Hlong).
    assert (Hl : length (firstn 300 p) = 300%nat)
      by (rewrite length_firstn; unfold len in Hlong; lia).
    assert (Hlen : len (firstn 300 p ++ lit "...") = 303).
    { unfold len. rewrite length_app, Hl. reflexivity. }
    split; [exact Hlen |].
    rewrite shown_long by lia.
    rewrite firstn_app, Hl, Nat.sub_diag, firstn_O, app_nil_r.
    rewrite firstn_all2 by lia. reflexivity.
  - rewrite (shown_short p Hshort). split; [reflexivity |].
    apply shown_short. exact Hshort.
Qed.

(** ** The fetched table *)

Lemma lstrip_head (s : str) (c : char) :
  hd_error (lstrip s) = Some c -> isspace c = false.
Proof.
  induction s as [| a s IH]; simpl; [discriminate |].
  destruct (isspace a) eqn:Ha; [exact IH |].
  simpl. intros E. inversion E; subst. exact Ha.
Qed.

Lemma lstrip_fixed (s : str) :
  (forall c, hd_error s = Some c -> isspace c = false) -> lstrip s = s.
Proof.
  destruct s as [| a s]; intros H; simpl; [reflexivity |].
  rewrite (H a eq_refl). reflexivity.
Qed.

Lemma lstrip_snoc (s : str) (c : char) :
  isspace c = false -> lstrip (s ++ [c]) = lstrip s ++ [c].
Proof.
  intros Hc. induction s as [| a s IH]; simpl.
  - rewrite Hc. reflexivity.
  - destruct (isspace a); [exact IH | reflexivity].
Qed.

(** A stripped string neither begins nor ends with a whitespace
    character. *)
Lemma strip_ends (s : str) (c : char) :
  hd_error (strip s) = Some c \/ hd_error (rev (strip s)) = Some c ->
  isspace c = false.
Proof.
  unfold strip. rewrite rev_involutive. intros [H | H].
  - destruct (lstrip s) as [| a t] eqn:Et; [discriminate |].
    assert (Ha : isspace a = false)
      by (apply (lstrip_head s); rewrite Et; reflexivity).
    simpl rev in H. rewrite (lstrip_snoc _ _ Ha), rev_app_distr in H.
    simpl in H. inversion H; subst. exact Ha.
  - eapply lstrip_head. exact H.
Qed.

Lemma strip_idempotent (s : str) : strip (strip s) = strip s.
Proof.
  assert (H1 : lstrip (strip s) = strip s).
  { apply lstrip_fixed. intros c Hc. apply (strip_ends s). left. exact Hc. }
  assert (H2 : lstrip (rev (strip s)) = rev (strip s)).
  { apply lstrip_fixed. intros c Hc. apply (strip_ends s). right. exact Hc. }
  unfold strip at 1. rewrite H1, H2. apply rev_involutive.
Qed.

Lemma keep_In {A B : Type} (f : A -> option B) (l : list A) (y : B) :
  In y (keep f l) <-> exists x : A, In x l /\ f x = Some y.
Proof.
  induction l as [| a l IH]; simpl.
  - split; [contradiction | intros (x & [] & _)].
  - destruct (f a) as [b |] eqn:Ea; simpl; rewrite IH; split.
    + intros [<- | (x & Hx & E)]; [exists a; auto | exists x; auto].
    + intros (x & [<- | Hx] & E); [left; congruence | right; exists x; auto].
    + intros (x & Hx & E). exists x; auto.
    + intros (x & [<- | Hx] & E); [congruence | exists x; auto].
Qed.

Lemma qualifies_len (t : str) : qualifies t = true -> 10 < len t.
Proof.
  unfold qualifies. destruct t; [discriminate |]. apply Z.ltb_lt.
Qed.

Lemma submission_row_text (s : submission) (r : row) :
  submission_row s = Some r ->
  text r = strip (title s ++ lit ". " ++ selftext s) /\
  type r = type_submission /\ score r = submission_score s /\
  10 < len (text r).
Proof.
  unfold submission_row.
  destruct (qualifies (strip (title s ++ lit ". " ++ selftext s))) eqn:Q;
    [| discriminate].
  intros E. inversion E; subst r. cbn [text type score].
  repeat split. apply qualifies_len. exact Q.
Qed.

Lemma comment_row_text (c : comment) (r : row) :
  comment_row c = Some r ->
  text r = strip (body c) /\
  type r = type_comment /\ score r = comment_score c /\
  10 < len (text r).
Proof.
  unfold comment_row.
  destruct (qualifies (strip (body c))) eqn:Q; [| discriminate].
  intros E. inversion E; subst r. cbn [text type score].
  repeat split. apply qualifies_len. exact Q.
Qed.

Lemma fetch_ok_inv (w : api) (self : scraper) (username : str) (limit : Z)
  (df : DataFrame) :
  snd (fetch_user_posts w self username limit) = Ok df ->
  exists r : session, fetch_with w r username limit = Ok df.
Proof.
  unfold fetch_user_posts.
  destruct (reddit self) as [r |]; [intros H; exists r; exact H |].
  destruct (client_id self) as [[| c id] |];
    destruct (client_secret self) as [[| d secret] |];
    try discriminate.
  destruct (Reddit w (c :: id) (d :: secret) (user_agent self) (Some false))
    as [r | e]; [| discriminate].
  intros H; exists r; exact H.
Qed.

Lemma submission_row_inv (s : submission) (r : row) :
  submission_row s = Some r ->
  text r = strip (title s ++ lit ". " ++ selftext s) /\
  type r = type_submission /\
  score r = submission_score s /\
  created_utc r = submission_created_utc s /\
  subreddit r = submission_subreddit s /\
  10 < len (text r).
Proof.
  unfold submission_row.
  destruct (qualifies (strip (title s ++ lit ". " ++ selftext s))) eqn:Q;
    [| discriminate].
  intros E. inversion E; subst r. cbn [text type score created_utc subreddit].
  repeat split. apply qualifies_len. exact Q.
Qed.

Lemma comment_row_inv (c : comment) (r : row) :
  comment_row c = Some r ->
  text r = strip (body c) /\
  type r = type_comment /\
  score r = comment_score c /\
  created_utc r = comment_created_utc c /\
  subreddit r = comment_subreddit c /\
  10 < len (text r).
Proof.
  unfold comment_row.
  destruct (qualifies (strip (body c))) eqn:Q; [| discriminate].
  intros E. inversion E; subst r. cbn [text type score created_utc subreddit].
  repeat split. apply qualifies_len. exact Q.
Qed.

(** A fetch that returns was served by the session the scraper holds after
    it. *)
Lemma fetch_ok_session (w : api) (self : scraper) (username : str)
  (limit : Z) (df : DataFrame) :
  snd (fetch_user_posts w self username limit) = Ok df ->
  exists ses : session,
    reddit (fst (fetch_user_posts w self username limit)) = Some ses /\
    fetch_with w ses username limit = Ok df.
Proof.
  unfold fetch_user_posts.
  destruct (reddit self) as [r |] eqn:Hr.
  - cbn [fst snd]. intros H. exists r. split; assumption.
  - destruct (client_id self) as [[| c id] |];
      destruct (client_secret self) as [[| d secret] |];
      try discriminate.
    destruct (Reddit w (c :: id) (d :: secret) (user_agent self) (Some false))
      as [r | e]; [| discriminate].
    cbn [fst snd reddit]. intros H. exists r. split; [reflexivity | exact H].
Qed.

(** X14: provided the table sort hands back rows of the table it is given,
    a fetched table is empty or was read through the session the scraper
    holds after the fetch, both listings having succeeded; every row of it
    then is the row of a submission of the one listing or of a comment of
    the other (text, type, score, time and subreddit), its text has more
    than 10 characters and neither begins nor ends with a whitespace
    character. *)
Theorem fetched_rows_qualify (w : api) (self : scraper) (username : str)
  (limit : Z) (df : DataFrame) :
  (forall (d : DataFrame) (r : row), In r (sort_values w d) -> In r d) ->
  snd (fetch_user_posts w self username limit) = Ok df ->
  df = [] \/
  exists (ses : session) (subs : list submission) (coms : list comment),
    reddit (fst (fetch_user_posts w self username limit)) = Some ses /\
    submissions_new w ses username (limit / 2) = Ok subs /\
    comments_new w ses username (limit / 2) = Ok coms /\
    forall r : row,
      In r df ->
      10 < len (text r) /\
      strip (text r) = text r /\
      (forall c : char,
          hd_error (text r) = Some c \/ hd_error (rev (text r)) = Some c ->
          isspace c = false) /\
      ((exists s : submission,
           In s subs /\
           text r = strip (title s ++ lit ". " ++ selftext s) /\
           type r = type_submission /\
           score r = submission_score s /\
           created_utc r = submission_created_utc s /\
           subreddit r = submission_subreddit s) \/
       (exists c : comment,
           In c coms /\
           text r = strip (body c) /\
           type r = type_comment /\
           score r = comment_score c /\
           created_utc r = comment_created_utc c /\
           subreddit r = comment_subreddit c)).
Proof.
  intros Hsort Hfetch.
  destruct (fetch_ok_session w self username limit df Hfetch)
    as (ses & Hses & Hw).
  unfold fetch_with in Hw.
  destruct (collect w ses username limit) as [posts_data |] eqn:Hc.
  2: { left. congruence. }
  right. unfold collect in Hc.
  destruct (submissions_new w ses username (limit / 2)) as [subs |] eqn:Hs;
    [| discriminate].
  cbn [bind] in Hc.
  destruct (comments_new w ses username (limit / 2)) as [coms |] eqn:Hm;
    [| discriminate].
  cbn [bind] in Hc. inversion Hc; subst posts_data.
  exists ses, subs, coms.
  split; [exact Hses |]. split; [exact Hs |]. split; [exact Hm |].
  intros r Hr.
  assert (Hin : In r (keep submission_row subs ++ keep comment_row coms)).
  { inversion Hw; subst df.
    destruct (0 <? len (keep submission_row subs ++ keep comment_row coms));
      [apply Hsort |]; exact Hr. }
  apply in_app_or in Hin.
  destruct Hin as [Hin | Hin]; apply keep_In in Hin;
    destruct Hin as (x & Hx & Hrow).
  - destruct (submission_row_inv x r Hrow)
      as (Ht & Hty & Hsc & Hcr & Hsu & Hlen).
    split; [exact Hlen |].
    split; [rewrite Ht; apply strip_idempotent |].
    split; [rewrite Ht; apply strip_ends |].
    left. exists x. repeat (split; [assumption |]). assumption.
  - destruct (comment_row_inv x r Hrow)
      as (Ht & Hty & Hsc & Hcr & Hsu & Hlen).
    split; [exact Hlen |].
    split; [rewrite Ht; apply strip_idempotent |].
    split; [rewrite Ht; apply strip_ends |].
    right. exists x. repeat (split; [assumption |]). assumption.
Qed.

Lemma fetched_rows_qualify_witness :
  exists (df : DataFrame) (subs : list submission) (coms : list comment),
    snd (fetch_user_posts api_active scraper_active (lit "alice") 100) = Ok df
    /\ length df = 2%nat
    /\ subs = [a_submission] /\ coms = [a_short_comment; a_comment]
    /\ forall r : row,
         In r df ->
         10 < len (text r) /\
         ((exists s : submission,
              In s subs /\
              text r = strip (title s ++ lit ". " ++ selftext s)) \/
          (exists c : comment, In c coms /\ text r = strip (body c))).
Proof.
  assert (Hf : exists df,
             snd (fetch_user_posts api_active scraper_active (lit "alice") 100)
             = Ok df /\ length df = 2%nat)
    by (eexists; split; [vm_compute; reflexivity | reflexivity]).
  destruct Hf as (df & Hf & Hlen).
  destruct (fetched_rows_qualify api_active scraper_active (lit "alice") 100
              df (fun d r' H => H) Hf)
    as [-> | (ses & subs & coms & _ & Hs & Hc & Hrows)]; [discriminate |].
  exists df, subs, coms.
  split; [exact Hf |]. split; [exact Hlen |].
  split; [cbn in Hs; congruence |]. split; [cbn in Hc; congruence |].
  intros r Hr.
  destruct (Hrows r Hr) as (Hl & _ & _ & [(s & Hin & Ht & _) | (c & Hin & Ht & _)]).
  - split; [exact Hl |]. left. exists s. split; assumption.
  - split; [exact Hl |]. right. exists c. split; assumption.
Defined.

(** ** The scraper's session *)

Lemma fetch_without_credentials (w : api) (self : scraper) (username : str)
  (limit : Z) :
  reddit self = None ->
  truthy (client_id self) && truthy (client_secret self) = false ->
  fetch_user_posts w self username limit =
  (self, Raise (ValueError credentials_required)).
Proof.
  intros Hr Ht. unfold fetch_user_posts. rewrite Hr.
  destruct (client_id self) as [[| c id] |];
    destruct (client_secret self) as [[| d secret] |];
    try reflexivity; discriminate.
Qed.

(** X15: a fetch never changes the scraper's credentials or user agent; a
    scraper that holds a session is left as it is; a session the scraper
    holds after a fetch serves every later fetch without a new call of
    [praw.Reddit]; and when no session is held after a fetch, that fetch
    raised. *)
Theorem fetch_keeps_session (w : api) (self : scraper) (username : str)
  (limit : Z) :
  let self' := fst (fetch_user_posts w self username limit) in
  client_id self' = client_id self /\
  client_secret self' = client_secret self /\
  user_agent self' = user_agent self /\
  (forall r : session, reddit self = Some r -> self' = self) /\
  (forall r : session,
      reddit self' = Some r ->
      forall (username2 : str) (limit2 : Z),
        fetch_user_posts w self' username2 limit2 =
        (self', fetch_with w r username2 limit2)) /\
  (reddit self' = None ->
   exists e : exn, snd (fetch_user_posts w self username limit) = Raise e).
Proof.
  cbv zeta.
  destruct (reddit self) as [r |] eqn:Hr.
  - assert (Hf : fetch_user_posts w self username limit =
                 (self, fetch_with w r username limit))
      by (unfold fetch_user_posts; rewrite Hr; reflexivity).
    rewrite Hf. cbn [fst snd].
    repeat split; try reflexivity.
    + intros r' Hr' u2 l2. unfold fetch_user_posts. rewrite Hr'. reflexivity.
    + intros H. congruence.
  - destruct (truthy (client_id self) && truthy (client_secret self)) eqn:Ht.
    + destruct (client_id self) as [[| c id] |] eqn:Hi; try discriminate.
      destruct (client_secret self) as [[| d secret] |] eqn:Hs;
        try discriminate.
      destruct (Reddit w (c :: id) (d :: secret) (user_agent self)
                  (Some false)) as [r | e] eqn:Hc.
      * assert (Hf : fetch_user_posts w self username limit =
                     ({| client_id := client_id self;
                         client_secret := client_secret self;
                         user_agent := user_agent self;
                         reddit := Some r |},
                      fetch_with w r username limit))
          by (unfold fetch_user_posts; rewrite Hr, Hi, Hs, Hc; reflexivity).
        rewrite Hf. cbn [fst snd client_id client_secret user_agent reddit].
        rewrite Hi, Hs.
        repeat split; try reflexivity; try discriminate.
        intros r' Hr' u2 l2. inversion Hr'; subst r'. reflexivity.
      * assert (Hf : fetch_user_posts w self username limit =
                     (self, Raise e))
          by (unfold fetch_user_posts; rewrite Hr, Hi, Hs, Hc; reflexivity).
        rewrite Hf. cbn [fst snd]. rewrite Hi, Hs, Hr.
        repeat split; try reflexivity; try discriminate.
        intros _. eauto.
    + rewrite (fetch_without_credentials w self username limit Hr Ht).
      cbn [fst snd]. rewrite Hr.
      repeat split; try reflexivity; try discriminate.
      intros _. eauto.
Qed.

Lemma fetch_keeps_session_witness :
  exists r : session,
    reddit (fst (fetch_user_posts api_active scraper_lazy (lit "alice") 100))
    = Some r /\
    fetch_user_posts api_active
      (fst (fetch_user_posts api_active scraper_lazy (lit "alice") 100))
      (lit "bob") 50 =
    (fst (fetch_user_posts api_active scraper_lazy (lit "alice") 100),
     fetch_with api_active r (lit "bob") 50).
Proof.
  eexists. split; [vm_compute; reflexivity |].
  apply (proj1 (proj2 (proj2 (proj2 (proj2
           (fetch_keeps_session api_active scraper_lazy (lit "alice") 100)))))).
  vm_compute. reflexivity.
Defined.

(** ** Saving to a file *)

Import RedditScraperFiles.

(** X16: when the fetch returns an empty table, [save_user_data] raises
    [No data fetched for u/<name>] and writes nothing; this is what a
    failure of the listings (an account that does not exist, an API that
    cannot be reached) comes to, the error itself being lost.  An exception
    of the fetch passes, nothing being written either. *)
Theorem save_user_data_needs_rows (w : api) (d : disk) (self : scraper)
  (username : str) (limit : Z) (output_file : option str) :
  (snd (fetch_user_posts w self username limit) = Ok [] ->
   save_user_data w d self username limit output_file =
   (fst (fetch_user_posts w self username limit), [],
    Raise (ValueError (lit "No data fetched for u/" ++ username)))) /\
  (forall (r : session) (e : exn),
      reddit self = Some r ->
      submissions_new w r username (limit / 2) = Raise e \/
      comments_new w r username (limit / 2) = Raise e ->
      save_user_data w d self username limit output_file =
      (self, [],
       Raise (ValueError (lit "No data fetched for u/" ++ username)))) /\
  (forall e : exn,
      snd (fetch_user_posts w self username limit) = Raise e ->
      save_user_data w d self username limit output_file =
      (fst (fetch_user_posts w self username limit), [], Raise e)).
Proof.
  assert (Hempty :
    snd (fetch_user_posts w self username limit) = Ok [] ->
    save_user_data w d self username limit output_file =
    (fst (fetch_user_posts w self username limit), [],
     Raise (ValueError (lit "No data fetched for u/" ++ username)))).
  { unfold save_user_data.
    destruct (fetch_user_posts w self username limit) as [self' fetched].
    cbn [fst snd]. intros ->. reflexivity. }
  split; [exact Hempty |]. split.
  - intros r e Hr He.
    assert (Hf : fetch_user_posts w self username limit = (self, Ok [])).
    { unfold fetch_user_posts. rewrite Hr.
      rewrite (fetch_with_swallows w r username limit e He). reflexivity. }
    rewrite Hempty; rewrite Hf; reflexivity.
  - intros e He. unfold save_user_data.
    destruct (fetch_user_posts w self username limit) as [self' fetched].
    cbn [fst snd] in *. rewrite He. reflexivity.
Qed.

Lemma save_user_data_needs_rows_witness :
  save_user_data api_no_account disk_ok scraper_ready (lit "ghost") 100 None =
  (scraper_ready, [],
   Raise (ValueError (lit "No data fetched for u/" ++ lit "ghost"))).
Proof.
  destruct (save_user_data_needs_rows api_no_account disk_ok scraper_ready
              (lit "ghost") 100 None) as (_ & Hlost & _).
  eapply (Hlost _ not_found); [reflexivity | left; reflexivity].
Defined.

(** X17: when the fetch returns a table with rows, [save_user_data] hands
    exactly that table to [to_csv], once, under the given file name or, if
    none (or the empty name) is given, under [<username>_reddit.csv]; it
    returns that name when the write succeeds and raises what the write
    raises. *)
Theorem save_user_data_writes_table (w : api) (d : disk) (self : scraper)
  (username : str) (limit : Z) (output_file : option str) (df : DataFrame) :
  snd (fetch_user_posts w self username limit) = Ok df ->
  df <> [] ->
  let path :=
    if truthy output_file then or_default output_file []
    else username ++ lit "_reddit.csv" in
  save_user_data w d self username limit output_file =
  (fst (fetch_user_posts w self username limit),
   [wrote path df],
   match to_csv d df path with
   | Ok _ => Ok path
   | Raise e => Raise e
   end).
Proof.
  intros Hf Hne path. unfold save_user_data.
  destruct (fetch_user_posts w self username limit) as [self' fetched].
  cbn [fst snd] in *. subst fetched.
  assert (Hlen : (len df =? 0) = false).
  { apply Z.eqb_neq. destruct df; [congruence |]. unfold len. simpl. lia. }
  rewrite Hlen.
  assert (Hpath :
    match output_file with
    | Some (c :: f) => c :: f
    | _ => username ++ lit "_reddit.csv"
    end = path).
  { unfold path. destruct output_file as [[| c f] |]; reflexivity. }
  rewrite Hpath.
  destruct (to_csv d df path); reflexivity.
Qed.

Lemma save_user_data_writes_table_witness :
  exists df : DataFrame,
    df <> [] /\
    save_user_data api_active disk_ok scraper_active (lit "alice") 100 None =
    (scraper_active,
     [wrote (lit "alice" ++ lit "_reddit.csv") df],
     Ok (lit "alice" ++ lit "_reddit.csv")).
Proof.
  assert (Hf : exists df,
             snd (fetch_user_posts api_active scraper_active (lit "alice") 100)
             = Ok df /\ df <> []).
  { eexists. split; [vm_compute; reflexivity | discriminate]. }
  destruct Hf as (df & Hf & Hne).
  exists df. split; [exact Hne |].
  rewrite (save_user_data_writes_table api_active disk_ok scraper_active
             (lit "alice") 100 None df Hf Hne).
  reflexivity.
Defined.

(** X18: [quick_fetch_users] builds its scraper without credentials, so it
    always raises [Reddit API credentials required! ...]: whatever the
    users and the API, no listing is read, nothing is written and the pause
    is never reached. *)
Theorem quick_fetch_users_always_raises (w : api) (d : disk)
  (user1 user2 : str) (posts_per_user : Z) :
  quick_fetch_users w d user1 user2 posts_per_user =
  ([], Raise (ValueError credentials_required)).
Proof.
  unfold quick_fetch_users, save_user_data.
  rewrite fetch_without_credentials by reflexivity.
  reflexivity.
Qed.

(** ** The analysis run *)

Import Main.

Lemma str_eqb_refl (a : str) : str_eqb a a = true.
Proof. apply str_eqb_eq. reflexivity. Qed.

Lemma str_eqb_neq (a b : str) : a <> b -> str_eqb a b = false.
Proof.
  intros H. destruct (str_eqb a b) eqn:E; [| reflexivity].
  apply str_eqb_eq in E. contradiction.
Qed.

(** The run past its two checks. *)
Lemma main_checked (wr : RedditScraper.api) (secrets : str -> option str)
  (wl : world) (rng : Rng) (user1 user2 : str) (posts_limit sample_pairs : Z) :
  user1 <> [] -> user2 <> [] -> user1 <> user2 ->
  main wr secrets wl rng user1 user2 posts_limit sample_pairs true =
  match fetch_step wr secrets user1 posts_limit with
  | (m1, None) => ([m1], None)
  | (m1, Some posts1) =>
      match fetch_step wr secrets user2 posts_limit with
      | (m2, None) => ([m1; m2], None)
      | (m2, Some posts2) =>
          match generate_analysis wl rng provider posts1 posts2
                  user1 user2 sample_pairs with
          | Raise _ => ([m1; m2; st_error (lit "❌ Analysis failed. Please try again.")], None)
          | Ok report =>
              ([m1; m2],
               Some {| d_title :=
                         lit "## 📋 Compatibility Report: u/" ++ user1
                         ++ lit " ↔️ u/" ++ user2;
                       d_user1_posts := len posts1;
                       d_user2_posts := len posts2;
                       d_pairs_analyzed := sample_pairs;
                       d_report := report;
                       d_download_data := report;
                       d_download_name :=
                         lit "compatibility_" ++ user1 ++ lit "_"
                         ++ user2 ++ lit ".md" |})
          end
      end
  end.
Proof.
  intros H1 H2 Hne. unfold main. cbn [negb].
  destruct user1 as [| c1 u1]; [congruence |].
  destruct user2 as [| c2 u2]; [congruence |].
  rewrite (str_eqb_neq _ _ Hne). reflexivity.
Qed.

Lemma fetch_step_ok (wr : RedditScraper.api) (secrets : str -> option str)
  (user : str) (posts_limit : Z) (m : message) (posts : list str) :
  fetch_step wr secrets user posts_limit = (m, Some posts) ->
  exists df : DataFrame,
    fetch_reddit_posts wr secrets user posts_limit = Ok df /\
    df <> [] /\ posts = map text df /\
    m = st_success (lit "✅ Fetched " ++ str_of_nat (length posts)
                    ++ lit " posts from u/" ++ user).
Proof.
  unfold fetch_step.
  destruct (fetch_reddit_posts wr secrets user posts_limit) as [df | e];
    cbn [bind]; [| intros H; inversion H].
  destruct df as [| r df]; cbn [column_text]; intros H; inversion H.
  exists (r :: df). repeat split; discriminate.
Qed.

Lemma fetch_step_empty (wr : RedditScraper.api) (secrets : str -> option str)
  (user : str) (posts_limit : Z) :
  fetch_reddit_posts wr secrets user posts_limit = Ok [] ->
  fetch_step wr secrets user posts_limit =
  (st_error (lit "❌ Failed to fetch u/" ++ user ++ lit ": " ++ lit "'text'"),
   None).
Proof.
  intros H. unfold fetch_step. rewrite H. cbn [bind column_text].
  unfold exn_str. repeat f_equal; vm_compute; reflexivity.
Qed.

Lemma fetch_step_raise (wr : RedditScraper.api) (secrets : str -> option str)
  (user : str) (posts_limit : Z) (e : exn) :
  fetch_reddit_posts wr secrets user posts_limit = Raise e ->
  fetch_step wr secrets user posts_limit =
  (st_error (lit "❌ Failed to fetch u/" ++ user ++ lit ": " ++ exn_str e), None).
Proof.
  intros H. unfold fetch_step. rewrite H. reflexivity.
Qed.

Lemma fetch_step_rows (wr : RedditScraper.api) (secrets : str -> option str)
  (user : str) (posts_limit : Z) (df : DataFrame) :
  fetch_reddit_posts wr secrets user posts_limit = Ok df ->
  df <> [] ->
  fetch_step wr secrets user posts_limit =
  (st_success (lit "✅ Fetched " ++ str_of_nat (length df)
               ++ lit " posts from u/" ++ user),
   Some (map text df)).
Proof.
  intros H Hne. unfold fetch_step. rewrite H. cbn [bind].
  destruct df as [| r df]; [congruence |].
  cbn [column_text]. rewrite length_map. reflexivity.
Qed.

(** X19: a run checks the two names before anything is fetched: with a
    name missing it only shows the error asking for both names, with twice
    the same name only the warning, in every state of the outside; and
    without the button pressed it shows nothing. *)
Theorem main_checks_names_first (wr : RedditScraper.api)
  (secrets : str -> option str) (wl : world) (rng : Rng) (user1 user2 : str)
  (posts_limit sample_pairs : Z) :
  (user1 = [] \/ user2 = [] ->
   main wr secrets wl rng user1 user2 posts_limit sample_pairs true =
   ([st_error (lit "⚠️ Please enter both usernames!")], None)) /\
  (user1 <> [] -> user1 = user2 ->
   main wr secrets wl rng user1 user2 posts_limit sample_pairs true =
   ([st_warning (lit "🤔 That's the same person! Enter two different usernames.")], None)) /\
  main wr secrets wl rng user1 user2 posts_limit sample_pairs false =
  ([], None).
Proof.
  split; [| split].
  - intros [-> | ->]; unfold main; cbn [negb]; [reflexivity |].
    destruct user1; reflexivity.
  - intros H1 <-. unfold main. cbn [negb].
    destruct user1 as [| c u]; [congruence |].
    rewrite str_eqb_refl. reflexivity.
  - reflexivity.
Qed.

Lemma main_checks_names_first_witness :
  main api_active secrets_set world_ready rng_sevens [] (lit "bob") 50 15 true =
    ([st_error (lit "⚠️ Please enter both usernames!")], None) /\
  main api_active secrets_set world_ready rng_sevens (lit "bob") (lit "bob")
    50 15 true =
    ([st_warning (lit "🤔 That's the same person! Enter two different usernames.")], None).
Proof.
  split.
  - apply (proj1 (main_checks_names_first api_active secrets_set world_ready
                    rng_sevens [] (lit "bob") 50 15)).
    left. reflexivity.
  - apply (proj1 (proj2 (main_checks_names_first api_active secrets_set
                           world_ready rng_sevens (lit "bob") (lit "bob")
                           50 15))); [discriminate | reflexivity].
Defined.

Lemma analysis_ok_count (wl : world) (rng : Rng) (provider_name : str)
  (posts1 posts2 : list str) (user1 user2 : str) (n : Z) (report : str) :
  generate_analysis wl rng provider_name posts1 posts2 user1 user2 n
  = Ok report ->
  0 <= n.
Proof.
  unfold generate_analysis. intros H.
  destruct (Z.le_gt_cases 0 n) as [Hn | Hn]; [exact Hn |].
  destruct (get_provider wl provider_name); [| discriminate].
  cbn [bind] in H.
  rewrite (sample_pairs_negative rng posts1 posts2 n) in H by lia.
  discriminate.
Qed.

Lemma main_report_inv (wr : RedditScraper.api) (secrets : str -> option str)
  (wl : world) (rng : Rng) (user1 user2 : str) (posts_limit sample_pairs : Z)
  (analyze_clicked : bool) (msgs : list message) (d : display) :
  main wr secrets wl rng user1 user2 posts_limit sample_pairs analyze_clicked
  = (msgs, Some d) ->
  analyze_clicked = true /\ user1 <> [] /\ user2 <> [] /\ user1 <> user2 /\
  exists df1 df2 : DataFrame,
    fetch_reddit_posts wr secrets user1 posts_limit = Ok df1 /\
    fetch_reddit_posts wr secrets user2 posts_limit = Ok df2 /\
    df1 <> [] /\ df2 <> [] /\
    generate_analysis wl rng (lit "groq") (map text df1) (map text df2)
      user1 user2 sample_pairs = Ok (d_report d) /\
    d_user1_posts d = len df1 /\
    d_user2_posts d = len df2 /\
    d_pairs_analyzed d = sample_pairs /\
    d_download_data d = d_report d /\
    length msgs = 2%nat.
Proof.
  intros H.
  destruct analyze_clicked; [| discriminate].
  assert (H1 : user1 <> []) by (intros ->; discriminate).
  assert (H2 : user2 <> []) by (intros ->; destruct user1; discriminate).
  assert (Hne : user1 <> user2).
  { intros <-. unfold main in H. cbn [negb] in H.
    destruct user1 as [| c u]; [congruence |].
    rewrite str_eqb_refl in H. discriminate. }
  repeat (split; [assumption || reflexivity |]).
  rewrite (main_checked wr secrets wl rng user1 user2 posts_limit
             sample_pairs H1 H2 Hne) in H.
  destruct (fetch_step wr secrets user1 posts_limit) as [m1 [posts1 |]] eqn:F1;
    [| discriminate].
  destruct (fetch_step wr secrets user2 posts_limit) as [m2 [posts2 |]] eqn:F2;
    [| discriminate].
  destruct (generate_analysis wl rng provider posts1 posts2 user1 user2
              sample_pairs) as [report |] eqn:G; [| discriminate].
  destruct (fetch_step_ok _ _ _ _ _ _ F1) as (df1 & E1 & N1 & P1 & _).
  destruct (fetch_step_ok _ _ _ _ _ _ F2) as (df2 & E2 & N2 & P2 & _).
  exists df1, df2. inversion H; subst msgs d posts1 posts2.
  cbn [d_report d_user1_posts d_user2_posts d_pairs_analyzed d_download_data].
  unfold len. rewrite !length_map.
  repeat (split; [assumption || reflexivity |]). reflexivity.
Qed.

(** X20: a run that reaches its results section was started with two
    different names for each of which the fetch returned a table with rows,
    and the report it shows (and offers for download) is what the analysis
    call returned for the texts of these two tables with the provider
    [groq]; in particular the sample count was not negative. *)
Theorem main_report_needs_both_corpora (wr : RedditScraper.api)
  (secrets : str -> option str) (wl : world) (rng : Rng) (user1 user2 : str)
  (posts_limit sample_pairs : Z) (analyze_clicked : bool)
  (msgs : list message) (d : display) :
  main wr secrets wl rng user1 user2 posts_limit sample_pairs analyze_clicked
  = (msgs, Some d) ->
  user1 <> [] /\ user2 <> [] /\ user1 <> user2 /\ 0 <= sample_pairs /\
  exists df1 df2 : DataFrame,
    fetch_reddit_posts wr secrets user1 posts_limit = Ok df1 /\
    fetch_reddit_posts wr secrets user2 posts_limit = Ok df2 /\
    df1 <> [] /\ df2 <> [] /\
    generate_analysis wl rng (lit "groq") (map text df1) (map text df2)
      user1 user2 sample_pairs = Ok (d_report d) /\
    d_download_data d = d_report d /\
    d_user1_posts d = len df1 /\
    d_user2_posts d = len df2.
Proof.
  intros H.
  destruct (main_report_inv _ _ _ _ _ _ _ _ _ _ _ H)
    as (_ & H1 & H2 & Hne & df1 & df2 & E1 & E2 & N1 & N2 & G & M1 & M2 & _
        & Hd & _).
  repeat (split; [assumption |]).
  split; [eapply analysis_ok_count; exact G |].
  exists df1, df2. repeat (split; [assumption |]). assumption.
Qed.

Lemma main_report_needs_both_corpora_witness :
  exists (msgs : list message) (d : display),
    main api_active secrets_set world_ready rng_sevens (lit "alice")
      (lit "bob") 50 15 true = (msgs, Some d) /\
    d_report d = lit "They would get along." /\
    d_download_data d = d_report d /\ 0 <= 15.
Proof.
  assert (H : exists msgs d,
             main api_active secrets_set world_ready rng_sevens (lit "alice")
               (lit "bob") 50 15 true = (msgs, Some d)
             /\ d_report d = lit "They would get along.").
  { eexists. eexists. split; vm_compute; reflexivity. }
  destruct H as (msgs & d & H & Hr).
  exists msgs, d. split; [exact H |]. split; [exact Hr |].
  destruct (main_report_needs_both_corpora _ _ _ _ _ _ _ _ _ _ _ H)
    as (_ & _ & _ & Hn & df1 & df2 & _ & _ & _ & _ & _ & Hd & _).
  split; [exact Hd | exact Hn].
Defined.

(** X21: a fetch that fails stops the run at its message, and the second
    account is not fetched.  An exception of the fetch is shown by its
    message; an empty table (an account without qualifying content, or a
    failure the scraper swallowed) is shown as [Failed to fetch u/<name>:
    'text'], the [KeyError] of the column lookup. *)
Theorem main_stops_at_failed_fetch (wr : RedditScraper.api)
  (secrets : str -> option str) (wl : world) (rng : Rng) (user1 user2 : str)
  (posts_limit sample_pairs : Z) :
  user1 <> [] -> user2 <> [] -> user1 <> user2 ->
  (forall e : exn,
      fetch_reddit_posts wr secrets user1 posts_limit = Raise e ->
      main wr secrets wl rng user1 user2 posts_limit sample_pairs true =
      ([st_error (lit "❌ Failed to fetch u/" ++ user1 ++ lit ": " ++ exn_str e)],
       None)) /\
  (fetch_reddit_posts wr secrets user1 posts_limit = Ok [] ->
   main wr secrets wl rng user1 user2 posts_limit sample_pairs true =
   ([st_error (lit "❌ Failed to fetch u/" ++ user1 ++ lit ": " ++ lit "'text'")],
    None)) /\
  (forall df1 : DataFrame,
      fetch_reddit_posts wr secrets user1 posts_limit = Ok df1 ->
      df1 <> [] ->
      fetch_reddit_posts wr secrets user2 posts_limit = Ok [] ->
      main wr secrets wl rng user1 user2 posts_limit sample_pairs true =
      ([st_success (lit "✅ Fetched " ++ str_of_nat (length df1)
                    ++ lit " posts from u/" ++ user1);
        st_error (lit "❌ Failed to fetch u/" ++ user2 ++ lit ": " ++ lit "'text'")],
       None)).
Proof.
  intros H1 H2 Hne.
  rewrite (main_checked wr secrets wl rng user1 user2 posts_limit
             sample_pairs H1 H2 Hne).
  split; [| split].
  - intros e He. rewrite (fetch_step_raise _ _ _ _ _ He). reflexivity.
  - intros He. rewrite (fetch_step_empty _ _ _ _ He). reflexivity.
  - intros df1 E1 N1 E2.
    rewrite (fetch_step_rows _ _ _ _ _ E1 N1).
    rewrite (fetch_step_empty _ _ _ _ E2). reflexivity.
Qed.

Lemma main_stops_at_failed_fetch_witness :
  main api_no_account secrets_set world_ready rng_sevens (lit "ghost")
    (lit "bob") 50 15 true =
  ([st_error (lit "❌ Failed to fetch u/" ++ lit "ghost" ++ lit ": "
              ++ lit "'text'")], None) /\
  main api_active secrets_unset world_ready rng_sevens (lit "alice")
    (lit "bob") 50 15 true =
  ([st_error (lit "❌ Failed to fetch u/" ++ lit "alice" ++ lit ": "
              ++ exn_str (ValueError credentials_required))], None).
Proof.
  assert (Ha : lit "ghost" <> []) by discriminate.
  assert (Hb : lit "bob" <> []) by discriminate.
  assert (Hc : lit "alice" <> []) by discriminate.
  split.
  - apply (proj1 (proj2 (main_stops_at_failed_fetch api_no_account secrets_set
                           world_ready rng_sevens (lit "ghost") (lit "bob")
                           50 15 Ha Hb ltac:(discriminate)))).
    vm_compute. reflexivity.
  - apply (proj1 (main_stops_at_failed_fetch api_active secrets_unset
                    world_ready rng_sevens (lit "alice") (lit "bob")
                    50 15 Hc Hb ltac:(discriminate))).
    vm_compute. reflexivity.
Defined.

(** X22: when both fetches return rows and the analysis call raises, the
    run shows the two success messages and then [Analysis failed. Please
    try again.], the same for every exception, and no results. *)
Theorem main_hides_analysis_error (wr : RedditScraper.api)
  (secrets : str -> option str) (wl : world) (rng : Rng) (user1 user2 : str)
  (posts_limit sample_pairs : Z) (df1 df2 : DataFrame) (e : exn) :
  user1 <> [] -> user2 <> [] -> user1 <> user2 ->
  fetch_reddit_posts wr secrets user1 posts_limit = Ok df1 -> df1 <> [] ->
  fetch_reddit_posts wr secrets user2 posts_limit = Ok df2 -> df2 <> [] ->
  generate_analysis wl rng (lit "groq") (map text df1) (map text df2)
    user1 user2 sample_pairs = Raise e ->
  main wr secrets wl rng user1 user2 posts_limit sample_pairs true =
  ([st_success (lit "✅ Fetched " ++ str_of_nat (length df1)
                ++ lit " posts from u/" ++ user1);
    st_success (lit "✅ Fetched " ++ str_of_nat (length df2)
                ++ lit " posts from u/" ++ user2);
    st_error (lit "❌ Analysis failed. Please try again.")], None).
Proof.
  intros H1 H2 Hne E1 N1 E2 N2 G.
  rewrite (main_checked wr secrets wl rng user1 user2 posts_limit
             sample_pairs H1 H2 Hne).
  rewrite (fetch_step_rows _ _ _ _ _ E1 N1).
  rewrite (fetch_step_rows _ _ _ _ _ E2 N2).
  fold provider in G. rewrite G. reflexivity.
Qed.

Lemma main_hides_analysis_error_witness :
  exists m1 m2 : message,
    main api_active secrets_set world_vendor_down rng_sevens (lit "alice")
      (lit "bob") 50 15 true =
    ([m1; m2; st_error (lit "❌ Analysis failed. Please try again.")], None).
Proof.
  assert (Ha : lit "alice" <> []) by discriminate.
  assert (Hb : lit "bob" <> []) by discriminate.
  assert (F1 : exists df,
             fetch_reddit_posts api_active secrets_set (lit "alice") 50 = Ok df
             /\ df <> [])
    by (eexists; split; [vm_compute; reflexivity | discriminate]).
  assert (F2 : exists df,
             fetch_reddit_posts api_active secrets_set (lit "bob") 50 = Ok df
             /\ df <> [])
    by (eexists; split; [vm_compute; reflexivity | discriminate]).
  destruct F1 as (df1 & E1 & N1). destruct F2 as (df2 & E2 & N2).
  assert (G : exists e,
             generate_analysis world_vendor_down rng_sevens (lit "groq")
               (map text df1) (map text df2) (lit "alice") (lit "bob") 15
             = Raise e).
  { vm_compute in E1. vm_compute in E2.
    injection E1 as <-. injection E2 as <-.
    eexists. vm_compute. reflexivity. }
  destruct G as (e & G).
  eexists. eexists.
  apply (main_hides_analysis_error api_active secrets_set world_vendor_down
           rng_sevens (lit "alice") (lit "bob") 50 15 df1 df2 e Ha Hb
           ltac:(discriminate) E1 N1 E2 N2 G).
Defined.

Lemma sample_len_eq (rng : Rng) (posts1 posts2 : list str) (n : Z) :
  0 <= n ->
  exists s : list Pair,
    sample rng posts1 posts2 n = Ok s /\
    len s = 2 * Z.min (n / 2) (len posts1 * len posts2).
Proof.
  intros Hn. destruct (half_bounds n Hn) as [H0 _].
  eexists. split; [apply sample_eq; exact Hn |].
  rewrite len_app, len_draw_min by exact H0.
  unfold len at 2. rewrite length_firstn. unfold sorted_pairs.
  rewrite <- (Permutation_length
                (sorted_desc_perm combined_length (all_pairs posts1 posts2))).
  rewrite <- len_all_pairs. unfold len. lia.
Qed.

(** X23: the metric [Pairs Analyzed] of the results section is the value of
    the slider, not the number of pairs the prompt was built from: that
    number never exceeds the metric and is smaller whenever the slider
    value is odd or the two tables give fewer pairs than half of it. *)
Theorem main_pairs_metric_overstates (wr : RedditScraper.api)
  (secrets : str -> option str) (wl : world) (rng : Rng) (user1 user2 : str)
  (posts_limit sample_pairs : Z) (analyze_clicked : bool)
  (msgs : list message) (d : display) :
  main wr secrets wl rng user1 user2 posts_limit sample_pairs analyze_clicked
  = (msgs, Some d) ->
  exists (df1 df2 : DataFrame) (s : list Pair),
    fetch_reddit_posts wr secrets user1 posts_limit = Ok df1 /\
    fetch_reddit_posts wr secrets user2 posts_limit = Ok df2 /\
    sample rng (map text df1) (map text df2) sample_pairs = Ok s /\
    d_pairs_analyzed d = sample_pairs /\
    len s <= d_pairs_analyzed d /\
    (Z.odd sample_pairs = true -> len s < d_pairs_analyzed d) /\
    (len df1 * len df2 < sample_pairs / 2 -> len s < d_pairs_analyzed d).
Proof.
  intros H.
  destruct (main_report_inv _ _ _ _ _ _ _ _ _ _ _ H)
    as (_ & _ & _ & _ & df1 & df2 & E1 & E2 & _ & _ & G & _ & _ & Hm & _).
  pose proof (analysis_ok_count _ _ _ _ _ _ _ _ _ G) as Hn.
  destruct (sample_len_eq rng (map text df1) (map text df2) sample_pairs Hn)
    as (s & Hs & Hl).
  destruct (half_bounds sample_pairs Hn) as [H0 H2].
  assert (Hmap : len (map text df1) * len (map text df2) = len df1 * len df2)
    by (unfold len; rewrite !length_map; reflexivity).
  rewrite Hmap in Hl.
  exists df1, df2, s.
  repeat (split; [assumption |]). rewrite Hm.
  split; [lia |]. split.
  - intros Hodd.
    pose proof (Zdiv2_odd_eqn sample_pairs) as Hq.
    rewrite Hodd, Z.div2_div in Hq. lia.
  - intros Hfew. lia.
Qed.

Lemma main_pairs_metric_overstates_witness :
  exists (d : display) (s : list Pair),
    d_pairs_analyzed d = 15 /\ len s < d_pairs_analyzed d.
Proof.
  assert (H : exists msgs d,
             main api_active secrets_set world_ready rng_sevens (lit "alice")
               (lit "bob") 50 15 true = (msgs, Some d)).
  { eexists. eexists. vm_compute. reflexivity. }
  destruct H as (msgs & d & H).
  destruct (main_pairs_metric_overstates _ _ _ _ _ _ _ _ _ _ _ H)
    as (df1 & df2 & s & _ & _ & _ & Hm & _ & Hodd & _).
  exists d, s. split; [exact Hm |]. apply Hodd. reflexivity.
Defined.
